(** * fylshr: a static file server that forces downloads of media files

    Shallow embedding of the Go program (the complete variant with the
    [--https] flag, and the older variant of [main.go] where they differ)
    and the properties of its request handler, its address discovery and
    its certificate generation.

    Go strings are byte sequences: they are modelled by [string], whose
    characters are the 8-bit [ascii].  Go's [int] indices are modelled by
    [Z], so that [len(url)-1] on the empty string is [-1] as in the
    source.  A run-time panic is [None].

    The functions of the Go standard library that the program calls and
    that compute on their arguments alone ([path.Base], [filepath.Ext],
    [strconv.Quote] with [utf8.DecodeRuneInString], [Header.Set],
    the write to the response of the HTTP/1 server, [IP.To4],
    [IP.IsLoopback], [IP.String]) are embedded from the library.  What
    depends on the host is a parameter: the MIME lookup, the Unicode
    tables, what the delegated file server does to the response (what
    it does to the request is embedded), the interface addresses, the
    clock, the random source, the X.509 encoder and the listen call. *)

From Stdlib Require Import ZArith String Ascii List Bool Lia.
From Stdlib Require Import DecimalString DecimalZ DecimalPos.
From stdpp Require Import base option gmap strings.

Local Open Scope string_scope.
Local Open Scope Z_scope.

(** ** Go string primitives *)

Module GoString.

(** [len(s)] *)
Definition len (s : string) : Z := Z.of_nat (String.length s).

(** [s[i]]: panics when the index is out of range. *)
Definition index (s : string) (i : Z) : option ascii :=
  if (i <? 0) || (len s <=? i) then None else String.get (Z.to_nat i) s.

(** [s[i:]] for [0 <= i <= len(s)] *)
Fixpoint drop (s : string) (n : nat) {struct s} : string :=
  match n with
  | O => s
  | S n' => match s with
            | EmptyString => s
            | String _ tl => drop tl n'
            end
  end.

(** [s[:n]] for [0 <= n <= len(s)] *)
Fixpoint take (s : string) (n : nat) {struct s} : string :=
  match n with
  | O => EmptyString
  | S n' => match s with
            | EmptyString => EmptyString
            | String c tl => String c (take tl n')
            end
  end.

Definition slice_from (s : string) (i : Z) : string := drop s (Z.to_nat i).
Definition slice_to (s : string) (n : Z) : string := take s (Z.to_nat n).

(** [bytealg.LastIndexByteString(s, c)]: the index of the last [c] in
    [s], or [-1]. *)
Fixpoint LastIndexByteString (s : string) (c : ascii) : Z :=
  match s with
  | EmptyString => -1
  | String a tl =>
      let i := LastIndexByteString tl c in
      if 0 <=? i then i + 1
      else if Ascii.eqb a c then 0 else -1
  end.

(** The last byte of a string, when it has one. *)
Fixpoint last (s : string) : option ascii :=
  match s with
  | EmptyString => None
  | String c EmptyString => Some c
  | String _ tl => last tl
  end.

(** Whether byte [c] occurs in [s]. *)
Fixpoint contains (s : string) (c : ascii) : bool :=
  match s with
  | EmptyString => false
  | String a tl => Ascii.eqb a c || contains tl c
  end.

End GoString.

Import GoString.

(** ** [path.Base] and [filepath.Ext] *)

Definition slash : ascii := "/"%char.
Definition dot : ascii := "."%char.

(** The loop [for len(path) > 0 && path[len(path)-1] == '/'] of
    [path.Base], one unit of fuel per iteration. *)
Fixpoint stripTrailingSlashes (fuel : nat) (path : string) : string :=
  match fuel with
  | O => path
  | S fuel' =>
      if (0 <? len path) && bool_decide (index path (len path - 1) = Some slash)
      then stripTrailingSlashes fuel' (slice_to path (len path - 1))
      else path
  end.

(** [path.Base(path)] *)
Definition Base (path : string) : string :=
  if String.eqb path "" then "."
  else
    let path := stripTrailingSlashes (String.length path) path in
    let i := LastIndexByteString path slash in
    let path := if 0 <=? i then slice_from path (i + 1) else path in
    if String.eqb path "" then "/" else path.

(** [os.IsPathSeparator] on Unix *)
Definition IsPathSeparator (c : ascii) : bool := Ascii.eqb c slash.

(** The loop [for i := len(path)-1; i >= 0 && !os.IsPathSeparator(path[i]); i--]
    of [filepath.Ext]; the counter [n] is [i+1].  [path[i]] is in range
    at every iteration ([i < len(path)]). *)
Fixpoint ExtLoop (path : string) (n : nat) : string :=
  match n with
  | O => ""
  | S i =>
      match String.get i path with
      | Some c =>
          if IsPathSeparator c then ""
          else if Ascii.eqb c dot then drop path i
          else ExtLoop path i
      | None => ""
      end
  end.

(** [filepath.Ext(path)] *)
Definition Ext (path : string) : string := ExtLoop path (String.length path).

(** ** The classification table and [isMedia] *)

(** The case list of the [switch] in [isMedia]. *)
Definition mediaTypes : list string :=
  [ "image/jpeg";
    "image/png";
    "image/gif";
    "video/mp4";
    "video/mpeg";
    "video/webm";
    "video/quicktime";
    "application/pdf";
    "application/msword";
    "application/vnd.openxmlformats-officedocument.wordprocessingml.document";
    "application/vnd.ms-powerpoint";
    "application/vnd.openxmlformats-officedocument.presentationml.presentation";
    "application/vnd.ms-excel";
    "application/vnd.openxmlformats-officedocument.spreadsheetml.sheet";
    "audio/mpeg";
    "audio/wav";
    "audio/ogg";
    "audio/midi";
    "application/ogg";
    "application/x-7z-compressed";
    "application/zip";
    "application/x-rar-compressed";
    "application/x-tar";
    "application/x-bzip2";
    "application/x-gzip";
    "application/x-zip-compressed";
    "application/x-tar-gz";
    "application/x-compressed-tar" ].

(** [switch mimeType { case ...: return true; default: return false }] *)
Definition inMediaTypes (mimeType : string) : bool :=
  existsb (String.eqb mimeType) mediaTypes.

Section Classifier.

(** [mime.TypeByExtension]: the extension-to-MIME lookup of the
    platform (built-in table, system MIME files, registered types). *)
Variable TypeByExtension : string -> string.

Definition isMedia (filename : string) : bool :=
  let extension := Ext filename in
  let mimeType := TypeByExtension extension in
  inMediaTypes mimeType.

End Classifier.


(** ** [unicode/utf8]: decoding and encoding of runes

    Bytes and runes are integers ([Z]); [byte(x)] and [uint32(x)] are the
    truncating conversions. *)

Definition byteZ (c : ascii) : Z := Z.of_N (N_of_ascii c).
Definition byte (z : Z) : Z := z mod 256.
Definition uint32 (z : Z) : Z := z mod 2 ^ 32.
Definition int32 (z : Z) : Z := (z + 2 ^ 31) mod 2 ^ 32 - 2 ^ 31.
Definition ascii_of_byte (z : Z) : ascii := ascii_of_N (Z.to_N (byte z)).

(** [s[i]] as an integer, where the index is known to be in range
    (every use below is guarded by a length test). *)
Definition byteAt (s : string) (i : nat) : Z :=
  match String.get i s with
  | Some c => byteZ c
  | None => 0
  end.

Module utf8.

Definition RuneError : Z := 0xFFFD.
Definition RuneSelf : Z := 0x80.
Definition MaxRune : Z := 0x10FFFF.

Definition surrogateMin : Z := 0xD800.
Definition surrogateMax : Z := 0xDFFF.

Definition tx : Z := 0x80.
Definition t2 : Z := 0xC0.
Definition t3 : Z := 0xE0.
Definition t4 : Z := 0xF0.

Definition maskx : Z := 0x3F.
Definition mask2 : Z := 0x1F.
Definition mask3 : Z := 0x0F.
Definition mask4 : Z := 0x07.

Definition rune1Max : Z := Z.shiftl 1 7 - 1.
Definition rune2Max : Z := Z.shiftl 1 11 - 1.
Definition rune3Max : Z := Z.shiftl 1 16 - 1.

Definition locb : Z := 0x80.
Definition hicb : Z := 0xBF.

(** Entries of the [first] table: size in the low bits, index into
    [acceptRanges] in the high bits. *)
Definition xx : Z := 0xF1.
Definition as_ : Z := 0xF0.
Definition s1 : Z := 0x02.
Definition s2 : Z := 0x13.
Definition s3 : Z := 0x03.
Definition s4 : Z := 0x23.
Definition s5 : Z := 0x34.
Definition s6 : Z := 0x04.
Definition s7 : Z := 0x44.

(** The 256-entry table [first], by ranges of the first byte. *)
Definition first (b : Z) : Z :=
  if b <=? 0x7F then as_
  else if b <=? 0xC1 then xx
  else if b <=? 0xDF then s1
  else if b =? 0xE0 then s2
  else if b <=? 0xEC then s3
  else if b =? 0xED then s4
  else if b <=? 0xEF then s3
  else if b =? 0xF0 then s5
  else if b <=? 0xF3 then s6
  else if b =? 0xF4 then s7
  else xx.

Record acceptRange := { lo : Z; hi : Z }.

(** The 16-entry table [acceptRanges]; entries 5 to 15 are zero. *)
Definition acceptRanges (i : Z) : acceptRange :=
  if i =? 0 then {| lo := locb; hi := hicb |}
  else if i =? 1 then {| lo := 0xA0; hi := hicb |}
  else if i =? 2 then {| lo := locb; hi := 0x9F |}
  else if i =? 3 then {| lo := 0x90; hi := hicb |}
  else if i =? 4 then {| lo := locb; hi := 0x8F |}
  else {| lo := 0; hi := 0 |}.

(** [utf8.DecodeRuneInString(s)]: the rune and its width in bytes. *)
Definition DecodeRuneInString (s : string) : Z * Z :=
  let n := len s in
  if n <? 1 then (RuneError, 0)
  else
    let s0 := byteAt s 0 in
    let x := first s0 in
    if as_ <=? x then
      let mask := Z.shiftr (int32 (Z.shiftl x 31)) 31 in
      (Z.lor (Z.land s0 (Z.lnot mask)) (Z.land RuneError mask), 1)
    else
      let sz := Z.land x 7 in
      let accept := acceptRanges (Z.shiftr x 4) in
      if n <? sz then (RuneError, 1)
      else
        let s1 := byteAt s 1 in
        if (s1 <? lo accept) || (hi accept <? s1) then (RuneError, 1)
        else if sz <=? 2 then
          (Z.lor (Z.shiftl (Z.land s0 mask2) 6) (Z.land s1 maskx), 2)
        else
          let s2 := byteAt s 2 in
          if (s2 <? locb) || (hicb <? s2) then (RuneError, 1)
          else if sz <=? 3 then
            (Z.lor (Z.lor (Z.shiftl (Z.land s0 mask3) 12)
                          (Z.shiftl (Z.land s1 maskx) 6))
                   (Z.land s2 maskx), 3)
          else
            let s3 := byteAt s 3 in
            if (s3 <? locb) || (hicb <? s3) then (RuneError, 1)
            else
              (Z.lor (Z.lor (Z.lor (Z.shiftl (Z.land s0 mask4) 18)
                                   (Z.shiftl (Z.land s1 maskx) 12))
                            (Z.shiftl (Z.land s2 maskx) 6))
                     (Z.land s3 maskx), 4).

(** [utf8.ValidRune(r)] *)
Definition ValidRune (r : Z) : bool :=
  if (0 <=? r) && (r <? surrogateMin) then true
  else if (surrogateMax <? r) && (r <=? MaxRune) then true
  else false.

Definition bytes (l : list Z) : string :=
  string_of_list_ascii (List.map ascii_of_byte l).

(** [appendRuneNonASCII]: the bytes appended for [r]. *)
Definition encodeRuneNonASCII (r : Z) : string :=
  let i := uint32 r in
  if i <=? rune2Max then
    bytes [Z.lor t2 (byte (Z.shiftr r 6)); Z.lor tx (Z.land (byte r) maskx)]
  else
    let three r :=
      bytes [Z.lor t3 (byte (Z.shiftr r 12));
             Z.lor tx (Z.land (byte (Z.shiftr r 6)) maskx);
             Z.lor tx (Z.land (byte r) maskx)] in
    if (MaxRune <? i) || ((surrogateMin <=? i) && (i <=? surrogateMax))
    then three RuneError
    else if i <=? rune3Max then three r
    else
      bytes [Z.lor t4 (byte (Z.shiftr r 18));
             Z.lor tx (Z.land (byte (Z.shiftr r 12)) maskx);
             Z.lor tx (Z.land (byte (Z.shiftr r 6)) maskx);
             Z.lor tx (Z.land (byte r) maskx)].

(** [utf8.AppendRune(p, r)] appends [encodeRune r] to [p]. *)
Definition encodeRune (r : Z) : string :=
  if uint32 r <=? rune1Max then bytes [byte r] else encodeRuneNonASCII r.

Definition AppendRune (p : string) (r : Z) : string := p +:+ encodeRune r.

End utf8.

(** ** [strconv.Quote] *)

Definition backslash : ascii := "\"%char.
Definition dquote : ascii := ascii_of_N 34.

Module strconv.

Definition lowerhex : string := "0123456789abcdef".

(** [lowerhex[i]]; every use has [0 <= i < 16]. *)
Definition hexdigit (i : Z) : ascii :=
  match index lowerhex i with
  | Some c => c
  | None => "0"%char
  end.

Section Tables.

(** The Unicode tables of [strconv]: [IsPrint] above Latin-1
    ([isPrint16], [isNotPrint16], [isPrint32], [isNotPrint32]) and
    [isInGraphicList]. *)
Variable isPrintTable : Z -> bool.
Variable isInGraphicList : Z -> bool.

(** [strconv.IsPrint(r)] *)
Definition IsPrint (r : Z) : bool :=
  if r <=? 0xFF then
    if (0x20 <=? r) && (r <=? 0x7E) then true
    else if (0xA1 <=? r) && (r <=? 0xFF) then negb (r =? 0xAD)
    else false
  else isPrintTable r.

(** The digits appended by [for s := top; s >= 0; s -= 4] in the
    [\u] and [\U] cases; [n] counts the digits left. *)
Fixpoint hexdigits (r : Z) (n : nat) : string :=
  match n with
  | O => ""
  | S n' => String (hexdigit (Z.land (Z.shiftr r (4 * Z.of_nat n')) 0xF))
                   (hexdigits r n')
  end.

(** [appendEscapedRune(buf, r, quote, ASCIIonly, graphicOnly)]: the
    bytes appended to [buf]. *)
Definition escapedRune (r : Z) (quote : ascii)
           (ASCIIonly graphicOnly : bool) : string :=
  if (r =? byteZ quote) || (r =? byteZ backslash) then
    String backslash (String (ascii_of_byte r) "")
  else if ASCIIonly && ((r <? utf8.RuneSelf) && IsPrint r) then
    String (ascii_of_byte r) ""
  else if negb ASCIIonly && (IsPrint r || (graphicOnly && isInGraphicList r)) then
    utf8.encodeRune r
  else if r =? 7 then "\a"
  else if r =? 8 then "\b"
  else if r =? 12 then "\f"
  else if r =? 10 then "\n"
  else if r =? 13 then "\r"
  else if r =? 9 then "\t"
  else if r =? 11 then "\v"
  else if (r <? 0x20) || (r =? 0x7F) then
    "\x" +:+ String (hexdigit (Z.shiftr (byte r) 4))
               (String (hexdigit (Z.land (byte r) 0xF)) "")
  else if negb (utf8.ValidRune r) then
    "\u" +:+ hexdigits 0xFFFD 4
  else if r <? 0x10000 then
    "\u" +:+ hexdigits r 4
  else
    "\U" +:+ hexdigits r 8.

Definition appendEscapedRune (buf : string) (r : Z) (quote : ascii)
           (ASCIIonly graphicOnly : bool) : string :=
  buf +:+ escapedRune r quote ASCIIonly graphicOnly.

(** The loop [for width := 0; len(s) > 0; s = s[width:]] of
    [appendQuotedWith]: the bytes appended between the two quotes.
    For [s = String c tl], [s[width:]] is [drop tl (width - 1)]. *)
Fixpoint quotedBody (s : string) (quote : ascii)
         (ASCIIonly graphicOnly : bool) {struct s} : string :=
  match s with
  | EmptyString => ""
  | String c tl =>
      let '(r, width) :=
        if utf8.RuneSelf <=? byteZ c
        then utf8.DecodeRuneInString s
        else (byteZ c, 1) in
      let piece :=
        if (width =? 1) && (r =? utf8.RuneError) then
          "\x" +:+ String (hexdigit (Z.shiftr (byteZ c) 4))
                     (String (hexdigit (Z.land (byteZ c) 0xF)) "")
        else escapedRune r quote ASCIIonly graphicOnly in
      piece +:+ quotedBody (drop tl (Z.to_nat (width - 1))) quote
                  ASCIIonly graphicOnly
  end.

(** [appendQuotedWith(buf, s, quote, ASCIIonly, graphicOnly)] on an
    empty buffer, that is [quoteWith]. *)
Definition quoteWith (s : string) (quote : ascii)
           (ASCIIonly graphicOnly : bool) : string :=
  String quote (quotedBody s quote ASCIIonly graphicOnly)
    +:+ String quote "".

(** [strconv.Quote(s)] *)
Definition Quote (s : string) : string := quoteWith s dquote false false.

End Tables.

End strconv.

(** ** [net/http]: headers, requests and the response writer *)

Module http.

(** [textproto.validHeaderFieldByte]: the token characters. *)
Definition validHeaderFieldByte (c : ascii) : bool :=
  let n := byteZ c in
  ((0x30 <=? n) && (n <=? 0x39)) || ((0x41 <=? n) && (n <=? 0x5A))
  || ((0x61 <=? n) && (n <=? 0x7A))
  || contains "!#$%&'*+-.^_`|~" c.

(** The second loop of [textproto.canonicalMIMEHeaderKey]: upper case
    for the first letter and after each dash, lower case elsewhere. *)
Fixpoint canonicalLoop (upper : bool) (a : string) : string :=
  match a with
  | EmptyString => ""
  | String c tl =>
      let n := byteZ c in
      let n' :=
        if upper && ((0x61 <=? n) && (n <=? 0x7A)) then n - 0x20
        else if negb upper && ((0x41 <=? n) && (n <=? 0x5A)) then n + 0x20
        else n in
      String (ascii_of_byte n') (canonicalLoop (n' =? 0x2D) tl)
  end.

Fixpoint allValid (s : string) : bool :=
  match s with
  | EmptyString => true
  | String c tl => validHeaderFieldByte c && allValid tl
  end.

(** [textproto.CanonicalMIMEHeaderKey(s)]: a key holding a byte that
    is not a token character is returned unchanged. *)
Definition CanonicalMIMEHeaderKey (s : string) : string :=
  if allValid s then canonicalLoop true s else s.

(** [http.Header] is [map[string][]string]. *)
Abbreviation Header := (gmap string (list string)).

(** [h.Set(key, value)] *)
Definition Header_Set (h : Header) (key value : string) : Header :=
  <[CanonicalMIMEHeaderKey key := [value]]> h.

(** [h.Get(key)]: the first value of the key, or the empty string. *)
Definition Header_Get (h : Header) (key : string) : string :=
  match h !! CanonicalMIMEHeaderKey key with
  | Some (v :: _) => v
  | _ => ""
  end.

(** The fields of [*http.Request] the program reads. *)
Record Request := {
  Method : string;
  URL_Path : string;
  Proto : string;
  RemoteAddr : string;
  Req_Header : Header
}.

(** The response under construction, as the [*http.response] of the
    HTTP/1 server keeps it: the header map returned by [w.Header()]; the body bytes
    passed on to the connection so far, in order; the method of the
    request being answered ([w.req.Method]); whether the status line has
    been written ([wroteHeader]) and with which status; the declared
    Content-Length ([contentLength], -1 when none); and the count of
    body bytes the handlers have tried to write ([written]). *)
Record ResponseWriter := {
  Resp_Header : Header;
  Resp_Body : string;
  Resp_Method : string;
  Resp_wroteHeader : bool;
  Resp_status : Z;
  Resp_contentLength : Z;
  Resp_written : Z
}.

(** The response the server hands to the handler for a request. *)
Definition newResponse (method : string) : ResponseWriter :=
  {| Resp_Header := ∅; Resp_Body := ""; Resp_Method := method;
     Resp_wroteHeader := false; Resp_status := 0;
     Resp_contentLength := -1; Resp_written := 0 |}.

(** [w.Header().Set(key, value)] *)
Definition SetHeader (w : ResponseWriter) (key value : string)
  : ResponseWriter :=
  {| Resp_Header := Header_Set (Resp_Header w) key value;
     Resp_Body := Resp_Body w;
     Resp_Method := Resp_Method w;
     Resp_wroteHeader := Resp_wroteHeader w;
     Resp_status := Resp_status w;
     Resp_contentLength := Resp_contentLength w;
     Resp_written := Resp_written w |}.

(** The decimal digits of [strconv.ParseUint(s, 10, 64)]. *)
Fixpoint parseDigits (acc : Z) (s : string) : option Z :=
  match s with
  | EmptyString => Some acc
  | String c tl =>
      let d := byteZ c - 0x30 in
      if (0 <=? d) && (d <=? 9) then parseDigits (10 * acc + d) tl else None
  end.

(** [strconv.ParseInt(s, 10, 64)]: an optional sign and decimal digits,
    within the range of an [int64]; [None] is an error. *)
Definition ParseInt (s : string) : option Z :=
  match s with
  | EmptyString => None
  | String c tl =>
      let neg := Ascii.eqb c "-" in
      let digits := if Ascii.eqb c "+" || neg then tl else s in
      if String.eqb digits "" then None
      else
        un ← parseDigits 0 digits;
        if neg then (if un <=? 2 ^ 63 then Some (- un) else None)
        else (if un <? 2 ^ 63 then Some un else None)
  end.

Definition StatusOK : Z := 200.
Definition StatusNoContent : Z := 204.
Definition StatusNotModified : Z := 304.

(** [bodyAllowedForStatus(status)] *)
Definition bodyAllowedForStatus (status : Z) : bool :=
  if (100 <=? status) && (status <=? 199) then false
  else if status =? StatusNoContent then false
  else if status =? StatusNotModified then false
  else true.

(** [w.WriteHeader(http.StatusOK)], as [w.Write] calls it when the
    status line is not written yet: the status is fixed, and a
    Content-Length header that parses to a non-negative number becomes
    the declared length.  (A Content-Length that does not parse is also
    removed from the map by the library; [http.FileServer] writes the
    status line itself on every path, so that this step does not run in
    the write of the handler, and the map is left alone here.) *)
Definition WriteHeaderOK (w : ResponseWriter) : ResponseWriter :=
  if Resp_wroteHeader w then w
  else
    let cl := Header_Get (Resp_Header w) "Content-Length" in
    let contentLength :=
      if String.eqb cl "" then Resp_contentLength w
      else
        match ParseInt cl with
        | Some v => if 0 <=? v then v else Resp_contentLength w
        | None => Resp_contentLength w
        end in
    {| Resp_Header := Resp_Header w;
       Resp_Body := Resp_Body w;
       Resp_Method := Resp_Method w;
       Resp_wroteHeader := true;
       Resp_status := StatusOK;
       Resp_contentLength := contentLength;
       Resp_written := Resp_written w |}.

(** The end of [w.write]: the bytes counted in [written], and passed on
    to the connection when [send] holds. *)
Definition written_more (w : ResponseWriter) (s : string) (send : bool)
  : ResponseWriter :=
  {| Resp_Header := Resp_Header w;
     Resp_Body := if send then Resp_Body w +:+ s else Resp_Body w;
     Resp_Method := Resp_Method w;
     Resp_wroteHeader := Resp_wroteHeader w;
     Resp_status := Resp_status w;
     Resp_contentLength := Resp_contentLength w;
     Resp_written := Resp_written w + len s |}.

(** [io.WriteString(w, s)], that is [w.WriteString(s)], with its result
    dropped as the handler drops it.  The status line is written first
    when it was not; an empty write stops there.  The write is refused
    when the status allows no body ([http.ErrBodyNotAllowed]) and when
    it goes beyond the declared Content-Length
    ([http.ErrContentLength]); the answer to a HEAD request takes the
    bytes and sends none. *)
Definition WriteString (w : ResponseWriter) (s : string) : ResponseWriter :=
  let w := if Resp_wroteHeader w then w else WriteHeaderOK w in
  if len s =? 0 then w
  else if negb (bodyAllowedForStatus (Resp_status w)) then w
  else if negb (Resp_contentLength w =? -1)
          && (Resp_contentLength w <? Resp_written w + len s)
       then written_more w s false
  else if String.eqb (Resp_Method w) "HEAD" then written_more w s false
  else written_more w s true.

(** An [http.Handler]: what [ServeHTTP(w, r)] does to the response,
    given the request as the caller holds it. *)
Definition Handler : Type := ResponseWriter -> Request -> ResponseWriter.

(** [strings.HasPrefix(s, prefix)] *)
Definition HasPrefix (s prefix : string) : bool := String.prefix prefix s.

(** What [ServeHTTP] of the handler made by [http.FileServer] does to
    the request, which it holds by pointer: a path that does not start
    with a slash gets one, in place
    ([if !strings.HasPrefix(upath, "/") { upath = "/" + upath;
    r.URL.Path = upath }]).  The caller sees the new path from then
    on. *)
Definition fileHandler_request (r : Request) : Request :=
  let upath := URL_Path r in
  if negb (HasPrefix upath "/") then
    {| Method := Method r; URL_Path := "/" +:+ upath; Proto := Proto r;
       RemoteAddr := RemoteAddr r; Req_Header := Req_Header r |}
  else r.

End http.

Import http.

(** ** The program *)

Record Args := {
  port : string;
  folder : string;
  silent : bool;
  https : bool
}.

Definition style : string := "
<style>
  body {
    background: #111;
    color: #def;
  }

  *, *::before, *::after {
    font: 20px JetBrainsMono, mono, Menlo-Regular;
    box-sizing: border-box;

    scrollbar-width: thin;
    scrollbar-color: #aef #0003;
  }
  *::-webkit-scrollbar-thumb {
    background: #aef;
    border-radius: 20rem;
  }
  *::-webkit-scrollbar-track {
    background: #0003;
  }
  *::-webkit-scrollbar {
    width: 3rem;
  }

  pre {
    margin: 0;
    padding: 0.5rem;
  }

  a {
    color: #abf;
    font-weight: bold;
  }

  a:visited {
    color: #fba;
  }

  a:hover {
    color: #aef;
  }
</style>
".

(** The escape and newline bytes of the console messages. *)
Definition ESC : string := String (ascii_of_N 27) "".
Definition LF : string := String (ascii_of_N 10) "".

(** The request line printed by the handler: method, path, protocol,
    remote address and user agent. *)
Definition logLine (r : Request) : string :=
  ESC +:+ "[1m" +:+ ESC +:+ "[38;5;228m" +:+ Method r +:+ " " +:+ URL_Path r
  +:+ " " +:+ ESC +:+ "[38;5;195m" +:+ Proto r +:+ ESC +:+ "[0m "
  +:+ ESC +:+ "[38;5;225m" +:+ RemoteAddr r +:+ ESC +:+ "[0m | "
  +:+ ESC +:+ "[38;5;158m" +:+ Header_Get (Req_Header r) "User-Agent"
  +:+ ESC +:+ "[0m" +:+ LF.

(** [url[len(url)-1] == '/'], the value of the variable [isDir] of the
    handler; the index is out of range on the empty path. *)
Definition isDir (url : string) : option bool :=
  c ← index url (len url - 1);
  Some (Ascii.eqb c slash).

(** The output of one handler call: the response and the console. *)
Record Served := {
  response : ResponseWriter;
  stdout : string
}.

Section Server.

Variable TypeByExtension : string -> string.
Variable isPrintTable : Z -> bool.
Variable isInGraphicList : Z -> bool.

(** [http.FileServer(http.Dir(folder))]: the delegated static file
    server, over the file system of the host.  The variable is what its
    [ServeHTTP] does to the response; what it does to the request is
    [fileHandler_request]. *)
Variable FileServer : string -> Handler.

Abbreviation Quote := (strconv.Quote isPrintTable isInGraphicList).

(** [fmt.Sprintf("attachment; filename=%s", strconv.Quote(filename))] *)
Definition dispositionOf (filename : string) : string :=
  "attachment; filename=" +:+ Quote filename.

(** The handler closure of [main]. *)
Definition handler (args : Args) (w : ResponseWriter) (r : Request)
           (out : string) : option Served :=
  let fs := FileServer (folder args) in
  let url := URL_Path r in
  isDir ← isDir url;
  let w :=
    if negb isDir then
      let filename := Base url in
      if isMedia TypeByExtension filename then
        let disposition := dispositionOf filename in
        SetHeader w "Content-Disposition" disposition
      else w
    else w in
  let w := fs w r in
  let r := fileHandler_request r in
  let w := if isDir then WriteString w style else w in
  let out := if negb (silent args) then out +:+ logLine r else out in
  Some {| response := w; stdout := out |}.

End Server.

(** ** [net]: interface addresses *)

Module net.

Definition IPv4len : Z := 4.
Definition IPv6len : Z := 16.

(** [net.IP] is a byte slice; [nil] is the empty list. *)
Abbreviation IP := (list Z).

Definition IPv6loopback : IP := [0;0;0;0;0;0;0;0;0;0;0;0;0;0;0;1].
Definition v4InV6Prefix : IP := [0;0;0;0;0;0;0;0;0;0;0xff;0xff].

Definition isZeros (p : list Z) : bool := forallb (Z.eqb 0) p.

Definition bytesEqual (a b : list Z) : bool := bool_decide (a = b).

(** [ip.To4()]: [None] is the [nil] result. *)
Definition To4 (ip : IP) : option IP :=
  if Z.of_nat (length ip) =? IPv4len then Some ip
  else if (Z.of_nat (length ip) =? IPv6len)
          && isZeros (firstn 10 ip)
          && (nth 10 ip 0 =? 0xff) && (nth 11 ip 0 =? 0xff)
  then Some (skipn 12 ip)
  else None.

(** [ip.Equal(x)] *)
Definition Equal (ip x : IP) : bool :=
  if Z.of_nat (length ip) =? Z.of_nat (length x) then bytesEqual ip x
  else if (Z.of_nat (length ip) =? IPv4len) && (Z.of_nat (length x) =? IPv6len)
  then bytesEqual (firstn 12 x) v4InV6Prefix && bytesEqual ip (skipn 12 x)
  else if (Z.of_nat (length ip) =? IPv6len) && (Z.of_nat (length x) =? IPv4len)
  then bytesEqual (firstn 12 ip) v4InV6Prefix && bytesEqual (skipn 12 ip) x
  else false.

(** [ip.IsLoopback()] *)
Definition IsLoopback (ip : IP) : bool :=
  match To4 ip with
  | Some ip4 => nth 0 ip4 0 =? 127
  | None => Equal ip IPv6loopback
  end.

(** [netip.appendDecimal]: a byte in decimal, without leading zeros. *)
Definition digit (n : Z) : ascii := ascii_of_byte (0x30 + n).

Definition appendDecimal (x : Z) : string :=
  (if 100 <=? x then String (digit (x / 100)) "" else "")
  +:+ (if 10 <=? x then String (digit (x / 10 mod 10)) "" else "")
  +:+ String (digit (x mod 10)) "".

(** [netip.AddrFrom4(p4).String()]: dotted decimal. *)
Definition string4 (p4 : IP) : string :=
  appendDecimal (nth 0 p4 0) +:+ "." +:+ appendDecimal (nth 1 p4 0) +:+ "."
  +:+ appendDecimal (nth 2 p4 0) +:+ "." +:+ appendDecimal (nth 3 p4 0).

(** [hexString(b)] *)
Fixpoint hexString (b : list Z) : string :=
  match b with
  | [] => ""
  | tn :: rest =>
      String (strconv.hexdigit (Z.shiftr tn 4))
        (String (strconv.hexdigit (Z.land tn 0xF)) (hexString rest))
  end.

Section Text.

(** [netip.AddrFrom16(ip).String()]: the text of an IPv6 address. *)
Variable string16 : IP -> string.

(** [ip.String()] *)
Definition IP_String (ip : IP) : string :=
  if Z.of_nat (length ip) =? 0 then "<nil>"
  else if negb (Z.of_nat (length ip) =? IPv4len)
          && negb (Z.of_nat (length ip) =? IPv6len)
  then "?" +:+ hexString ip
  else
    match To4 ip with
    | Some p4 =>
        if Z.of_nat (length p4) =? IPv4len then string4 p4 else string16 ip
    | None => string16 ip
    end.

End Text.

(** [*net.IPNet] *)
Record IPNet := { IPNet_IP : IP; IPNet_Mask : list Z }.

(** A value of the interface [net.Addr]: an [*net.IPNet], which is what
    [net.InterfaceAddrs] yields for the unicast addresses of an
    interface, or an address of another dynamic type (such as
    [*net.IPAddr]) with its text, on which the type assertion of
    [getLocalAddr] fails. *)
Inductive Addr :=
| Addr_IPNet (ipnet : IPNet)
| Addr_other (network text : string).

End net.

Import net.

(** A Go result pair [(value, err)]: [Ok v] is [(v, nil)], [Err e] is
    [(nil, e)]. *)
Inductive Result (A : Type) :=
| Ok (v : A)
| Err (e : string).
Arguments Ok {A} v.
Arguments Err {A} e.

(** [v, _ := f()]: the value, [nil] on an error. *)
Definition valueOf {A} (r : Result A) : option A :=
  match r with
  | Ok v => Some v
  | Err _ => None
  end.


Section LocalAddr.

Variable string16 : IP -> string.

(** The body of [for _, addr := range addrs]: the first address that is
    an [*net.IPNet], not a loopback and IPv4. *)
Fixpoint rangeAddrs (addrs : list Addr) : option string :=
  match addrs with
  | [] => None
  | addr :: rest =>
      match addr with
      | Addr_IPNet ipnet =>
          if negb (IsLoopback (IPNet_IP ipnet))
             && bool_decide (To4 (IPNet_IP ipnet) <> None)
          then Some (IP_String string16 (IPNet_IP ipnet))
          else rangeAddrs rest
      | Addr_other _ _ => rangeAddrs rest
      end
  end.

(** [getLocalAddr()], given what [net.InterfaceAddrs()] returns. *)
Definition getLocalAddr (InterfaceAddrs : Result (list Addr)) : string :=
  match InterfaceAddrs with
  | Ok addrs =>
      match rangeAddrs addrs with
      | Some s => s
      | None => "127.0.0.1"
      end
  | Err _ => "127.0.0.1"
  end.

End LocalAddr.

(** ** [crypto/ecdsa], [crypto/x509], [crypto/tls] and [time] *)

Module ecdsa.

Record PublicKey := { Curve : string; X : Z; Y : Z }.

(** [ecdsa.PrivateKey] embeds its [PublicKey]. *)
Record PrivateKey := { Public : PublicKey; D : Z }.

End ecdsa.

Module time.

(** A [time.Duration] counts nanoseconds. *)
Definition Nanosecond : Z := 1.
Definition Microsecond : Z := 1000 * Nanosecond.
Definition Millisecond : Z := 1000 * Microsecond.
Definition Second : Z := 1000 * Millisecond.
Definition Minute : Z := 60 * Second.
Definition Hour : Z := 60 * Minute.

(** A [time.Time] as nanoseconds since the epoch. *)
Abbreviation Time := Z.

(** [t.Add(d)] *)
Definition Add (t : Time) (d : Z) : Time := t + d.

(** [t.Sub(u)] *)
Definition Sub (t u : Time) : Z := t - u.

End time.

Module x509.

(** [pkix.Name], with the field the program sets. *)
Record Name := { CommonName : string }.

Definition KeyUsageDigitalSignature : Z := Z.shiftl 1 0.
Definition KeyUsageContentCommitment : Z := Z.shiftl 1 1.
Definition KeyUsageKeyEncipherment : Z := Z.shiftl 1 2.

Definition ExtKeyUsageAny : Z := 0.
Definition ExtKeyUsageServerAuth : Z := 1.

(** [x509.Certificate], with the fields the program sets.  The serial
    number is a [*big.Int]: [None] is [nil]. *)
Record Certificate := {
  SerialNumber : option Z;
  Subject : Name;
  NotBefore : time.Time;
  NotAfter : time.Time;
  KeyUsage : Z;
  ExtKeyUsage : list Z
}.

End x509.

Module tls.

(** [tls.Certificate]: the chain of DER certificates ([None] is a [nil]
    byte slice) and the private key. *)
Record Certificate := {
  Certificate_chain : list (option string);
  PrivateKey : ecdsa.PrivateKey
}.

Record Config := { Certificates : list Certificate }.

End tls.

(** What the host gives to the calls of [generateTLSConfig]: the result
    of [ecdsa.GenerateKey(elliptic.P256(), rand.Reader)], the clock, the
    result of [rand.Int(rand.Reader, max)] and the result of
    [x509.CreateCertificate(rand.Reader, template, parent, pub, priv)]. *)
Record Crypto := {
  GenerateKey : string -> Result ecdsa.PrivateKey;
  Now : time.Time;
  rand_Int : Z -> Result Z;
  CreateCertificate :
    x509.Certificate -> x509.Certificate -> ecdsa.PublicKey ->
    ecdsa.PrivateKey -> Result string
}.

Definition P256 : string := "P-256".

(** [big.NewInt(x)] of an [int64]. *)
Definition NewInt (x : Z) : Z := x.

(** The certificate template built by [generateTLSConfig]. *)
Definition template (notBefore : time.Time) (serialNumber : option Z)
  : x509.Certificate :=
  let notAfter := time.Add notBefore (365 * 24 * time.Hour) in
  {| x509.SerialNumber := serialNumber;
     x509.Subject := {| x509.CommonName := "localhost" |};
     x509.NotBefore := notBefore;
     x509.NotAfter := notAfter;
     x509.KeyUsage :=
       Z.lor x509.KeyUsageKeyEncipherment x509.KeyUsageDigitalSignature;
     x509.ExtKeyUsage := [x509.ExtKeyUsageServerAuth] |}.

(** [generateTLSConfig()].  The three errors are discarded ([_]); a [nil]
    key makes [&priv.PublicKey] a nil dereference, a run-time panic. *)
Definition generateTLSConfig (c : Crypto) : option tls.Config :=
  let priv := valueOf (GenerateKey c P256) in
  let notBefore := Now c in
  let serialNumber := valueOf (rand_Int c (NewInt (Z.shiftl 1 62))) in
  let template := template notBefore serialNumber in
  priv ← priv;
  let derBytes :=
    valueOf (CreateCertificate c template template (ecdsa.Public priv) priv) in
  let cert :=
    {| tls.Certificate_chain := [derBytes]; tls.PrivateKey := priv |} in
  Some {| tls.Certificates := [cert] |}.

(** ** [main] *)

(** The parsed command-line flags. *)
Record Flags := {
  flag_port : Z;
  flag_folder : string;
  flag_silent : bool;
  flag_https : bool
}.

Definition defaultFlags : Flags :=
  {| flag_port := 1080; flag_folder := "public";
     flag_silent := false; flag_https := false |}.

(** [strconv.Itoa] *)
Definition Itoa (n : Z) : string :=
  DecimalString.NilZero.string_of_int (Z.to_int n).

Definition parseArgs (f : Flags) : Args :=
  {| port := Itoa (flag_port f);
     folder := flag_folder f;
     silent := flag_silent f;
     https := flag_https f |}.

(** How [main] ends: the listen call took the port and serves with the
    given TLS configuration (none for plain HTTP); or it returned an
    error, which [log.Fatal] prints before exiting with status 1; or the
    process crashed on a run-time panic. *)
Inductive Exit :=
| Serving (addr : string) (tlsConfig : option tls.Config)
| Fatal (err : string)
| Panicked.

Record Run := {
  console : string;
  exit : Exit
}.

Section Main.

Variable string16 : IP -> string.

(** The host: interface addresses, the crypto calls, and whether the
    listen call on an address fails ([http.ListenAndServe] and
    [server.ListenAndServeTLS] return only on an error). *)
Variable InterfaceAddrs : Result (list Addr).
Variable crypto : Crypto.
Variable Listen : string -> option string.

Definition banner (scheme : string) (color1 : string) (args : Args) : string :=
  ESC +:+ color1 +:+ scheme +:+ "://localhost:" +:+ port args +:+ LF
  +:+ ESC +:+ "[38;5;158m" +:+ scheme +:+ "://"
  +:+ getLocalAddr string16 InterfaceAddrs +:+ ":" +:+ port args +:+ LF.

Definition listenAndServe (addr : string) (cfg : option tls.Config) : Exit :=
  match Listen addr with
  | Some err => Fatal err
  | None => Serving addr cfg
  end.

Definition main (f : Flags) : Run :=
  let args := parseArgs f in
  let out :=
    ESC +:+ "[1m" +:+ banner "http" "[38;5;159m" args
    +:+ ESC +:+ "[38;5;225mCtrl-C" +:+ ESC +:+ "[0m to exit" +:+ LF in
  if https args then
    let out := out +:+ banner "https" "[38;5;159m" args in
    match generateTLSConfig crypto with
    | Some tlsConfig =>
        {| console := out;
           exit := listenAndServe (":" +:+ port args) (Some tlsConfig) |}
    | None => {| console := out; exit := Panicked |}
    end
  else
    {| console := out; exit := listenAndServe (":" +:+ port args) None |}.

End Main.

(** ** The older variant ([main.go])

    Its handler differs from the one above in the request line only,
    which leaves the path out. *)

Module MainGo.

Definition logLine (r : Request) : string :=
  ESC +:+ "[1m" +:+ ESC +:+ "[38;5;228m" +:+ Method r
  +:+ " " +:+ ESC +:+ "[38;5;195m" +:+ Proto r +:+ ESC +:+ "[0m "
  +:+ ESC +:+ "[38;5;225m" +:+ RemoteAddr r +:+ ESC +:+ "[0m | "
  +:+ ESC +:+ "[38;5;158m" +:+ Header_Get (Req_Header r) "User-Agent"
  +:+ ESC +:+ "[0m" +:+ LF.

Section Server.

Variable TypeByExtension : string -> string.
Variable isPrintTable : Z -> bool.
Variable isInGraphicList : Z -> bool.
Variable FileServer : string -> Handler.

Definition handler (args : Args) (w : ResponseWriter) (r : Request)
           (out : string) : option Served :=
  let fs := FileServer (folder args) in
  let url := URL_Path r in
  isDir ← isDir url;
  let w :=
    if negb isDir then
      let filename := Base url in
      if isMedia TypeByExtension filename then
        let filename :=
          "attachment; filename="
          +:+ strconv.Quote isPrintTable isInGraphicList filename in
        SetHeader w "Content-Disposition" filename
      else w
    else w in
  let w := fs w r in
  let r := fileHandler_request r in
  let w := if isDir then WriteString w style else w in
  let out := if negb (silent args) then out +:+ logLine r else out in
  Some {| response := w; stdout := out |}.

End Server.

End MainGo.

(** ** Notions used to state the properties *)

(** The final segment of a path: the text after its last separator, the
    whole path when it has none. *)
Fixpoint finalSegment (path : string) : string :=
  match path with
  | EmptyString => ""
  | String c tl =>
      if contains tl slash then finalSegment tl
      else if Ascii.eqb c slash then tl
      else path
  end.

(** The text of a name from its last dot on, empty without a dot. *)
Fixpoint finalDotSuffix (name : string) : string :=
  match name with
  | EmptyString => ""
  | String c tl =>
      if contains tl dot then finalDotSuffix tl
      else if Ascii.eqb c dot then name
      else ""
  end.

(** The extension by its meaning: the text from the last dot on, unless
    a separator follows that dot. *)
Definition extensionOf (path : string) : string :=
  if contains (finalDotSuffix path) slash then "" else finalDotSuffix path.


(** Every byte is printable ASCII and neither a double quote nor a
    backslash: [strconv.Quote] copies such a name between the quotes. *)
Definition plainByte (c : ascii) : bool :=
  (0x20 <=? byteZ c) && (byteZ c <=? 0x7E)
  && negb (Ascii.eqb c dquote) && negb (Ascii.eqb c backslash).

Fixpoint plainName (s : string) : bool :=
  match s with
  | EmptyString => true
  | String c tl => plainByte c && plainName tl
  end.

(** A byte that is neither a double quote nor a backslash, and a string
    of such bytes. *)
Definition safeByte (c : ascii) : bool :=
  negb (Ascii.eqb c dquote) && negb (Ascii.eqb c backslash).

Fixpoint allSafe (s : string) : bool :=
  match s with
  | EmptyString => true
  | String c tl => safeByte c && allSafe tl
  end.

(** Whether a path ends in the separator. *)
Definition endsInSlash (url : string) : bool :=
  bool_decide (last url = Some slash).

(** The console after a request: the line is printed unless [silent]. *)
Definition consoleAfter (args : Args) (out line : string) : string :=
  if negb (silent args) then out +:+ line else out.

(** An interface address that is an [*net.IPNet], not a loopback, and
    IPv4 (four bytes, or sixteen bytes in the IPv4-mapped form). *)
Definition isLanIPv4 (addr : Addr) : bool :=
  match addr with
  | Addr_IPNet ipnet =>
      negb (IsLoopback (IPNet_IP ipnet))
      && bool_decide (To4 (IPNet_IP ipnet) <> None)
  | Addr_other _ _ => false
  end.

(** The template that [generateTLSConfig] builds on a host and passes to
    [x509.CreateCertificate], as subject and as issuer. *)
Definition certTemplate (c : Crypto) : x509.Certificate :=
  template (Now c) (valueOf (rand_Int c (NewInt (Z.shiftl 1 62)))).





(** ** Sample hosts, for the examples *)

Module Sample.

(** Some entries of the built-in table of Go's [mime] package. *)
Definition builtinTypes : list (string * string) :=
  [ (".gif", "image/gif");
    (".htm", "text/html; charset=utf-8");
    (".html", "text/html; charset=utf-8");
    (".jpeg", "image/jpeg");
    (".jpg", "image/jpeg");
    (".js", "text/javascript; charset=utf-8");
    (".json", "application/json");
    (".pdf", "application/pdf");
    (".png", "image/png");
    (".svg", "image/svg+xml") ].

Fixpoint lookupType (table : list (string * string)) (ext : string) : string :=
  match table with
  | [] => ""
  | (e, t) :: rest => if String.eqb e ext then t else lookupType rest ext
  end.

Definition TypeByExtension (ext : string) : string :=
  lookupType builtinTypes ext.

Definition isPrintTable (r : Z) : bool := true.
Definition isInGraphicList (r : Z) : bool := false.

(** A file server that answers every request with an empty listing. *)
Definition listing : string := "<pre>" +:+ LF +:+ "</pre>" +:+ LF.

Definition FileServer (root : string) : Handler :=
  fun w _ => WriteString w listing.

(** The header value for [report.pdf]. *)
Definition quotedReport : string :=
  "attachment; filename=" +:+ String dquote ("report.pdf" +:+ String dquote "").

(** The response to a GET request, before the handler. *)
Definition w0 : ResponseWriter := newResponse "GET".

(** A file server for a folder that holds an [index.html] of twelve
    bytes: as [http.ServeContent] does, it declares the length of the
    page and then writes the page. *)
Definition indexPage : string := "<h1>hi</h1>" +:+ LF.

Definition indexServer (root : string) : Handler :=
  fun w _ =>
    let w := SetHeader w "Content-Type" "text/html; charset=utf-8" in
    let w := SetHeader w "Content-Length" "12" in
    WriteString w indexPage.

(** A file server that answers 304 Not Modified, without a body. *)
Definition notModifiedServer (root : string) : Handler :=
  fun w _ =>
    {| Resp_Header := Resp_Header w; Resp_Body := Resp_Body w;
       Resp_Method := Resp_Method w; Resp_wroteHeader := true;
       Resp_status := StatusNotModified;
       Resp_contentLength := Resp_contentLength w;
       Resp_written := Resp_written w |}.

Definition get (path : string) : Request :=
  {| Method := "GET"; URL_Path := path; Proto := "HTTP/1.1";
     RemoteAddr := "192.168.1.7:51234";
     Req_Header := {[ "User-Agent" := ["curl/8.5.0"] ]} |}.

Definition args : Args := parseArgs defaultFlags.

Definition key : ecdsa.PrivateKey :=
  {| ecdsa.Public := {| ecdsa.Curve := P256; ecdsa.X := 5; ecdsa.Y := 7 |};
     ecdsa.D := 11 |}.

(** A stand-in for the DER encoding, showing the subject, the issuer
    and the serial number of the certificate. *)
Definition describe (t parent : x509.Certificate) : string :=
  "subject=" +:+ x509.CommonName (x509.Subject t)
  +:+ " issuer=" +:+ x509.CommonName (x509.Subject parent)
  +:+ " serial="
  +:+ match x509.SerialNumber t with
      | Some n => Itoa n
      | None => "nil"
      end.

(** A host where everything succeeds. *)
Definition crypto : Crypto :=
  {| GenerateKey := fun _ => Ok key;
     Now := 1700000000 * time.Second;
     rand_Int := fun max => Ok (max - 1);
     CreateCertificate := fun t parent _ _ => Ok (describe t parent) |}.

(** A host where the certificate cannot be built. *)
Definition cryptoNoCert : Crypto :=
  {| GenerateKey := fun _ => Ok key;
     Now := 1700000000 * time.Second;
     rand_Int := fun max => Ok (max - 1);
     CreateCertificate := fun _ _ _ _ => Err "x509: signing failed" |}.




Definition string16 (ip : IP) : string := "::".

Definition httpsFlags : Flags :=
  {| flag_port := 8443; flag_folder := "public";
     flag_silent := false; flag_https := true |}.

(** A port that is free, and one that is taken. *)
Definition portFree (addr : string) : option string := None.
Definition portTaken (addr : string) : option string :=
  Some ("listen tcp " +:+ addr +:+ ": bind: address already in use").

Definition lo : Addr :=
  Addr_IPNet {| IPNet_IP := [127; 0; 0; 1]; IPNet_Mask := [255; 0; 0; 0] |}.
Definition lo6 : Addr :=
  Addr_IPNet {| IPNet_IP := IPv6loopback; IPNet_Mask := repeat 255 16 |}.
Definition eth0 : Addr :=
  Addr_IPNet {| IPNet_IP := [0;0;0;0;0;0;0;0;0;0;0xff;0xff;192;168;1;20];
                IPNet_Mask := [255; 255; 255; 0] |}.
Definition wlan0 : Addr :=
  Addr_IPNet {| IPNet_IP := [10; 0; 0; 5]; IPNet_Mask := [255; 0; 0; 0] |}.

End Sample.

(** ** Notions used to state further properties *)



Definition semicolon : ascii := ";"%char.

(** Reading a dotted-decimal address back: a run of decimal digits, and
    four of them separated by dots. *)
Definition isDigit (c : ascii) : bool :=
  (0x30 <=? byteZ c) && (byteZ c <=? 0x39).

Fixpoint readDecimal (acc : Z) (s : string) : Z * string :=
  match s with
  | EmptyString => (acc, "")
  | String c tl =>
      if isDigit c then readDecimal (10 * acc + (byteZ c - 0x30)) tl
      else (acc, s)
  end.

Definition readDot (s : string) : option string :=
  match s with
  | String c tl => if Ascii.eqb c dot then Some tl else None
  | EmptyString => None
  end.

Definition readDotted (s : string) : option (list Z) :=
  let '(a, s) := readDecimal 0 s in
  s ← readDot s;
  let '(b, s) := readDecimal 0 s in
  s ← readDot s;
  let '(c, s) := readDecimal 0 s in
  s ← readDot s;
  let '(d, s) := readDecimal 0 s in
  if String.eqb s "" then Some [a; b; c; d] else None.



Definition sampleSilentArgs : Args :=
  {| port := "9090"; folder := "public"; silent := true; https := true |}.

(** The UTF-8 text of a list of runes. *)
Fixpoint encodeAll (runes : list Z) : string :=
  match runes with
  | [] => ""
  | r :: rest => utf8.encodeRune r +:+ encodeAll rest
  end.

(** A rune that [strconv.Quote] copies: a valid code point that is
    printable and neither the double quote nor the backslash. *)
Definition copiedRune (isPrintTable : Z -> bool) (r : Z) : bool :=
  utf8.ValidRune r && strconv.IsPrint isPrintTable r
  && negb (r =? 34) && negb (r =? 92).

(** The code points of a name with two accented letters
    ([r], e-acute, [s], [u], [m], e-acute, [.pdf]) and a euro sign. *)
Definition sampleRunes : list Z :=
  [114; 233; 115; 117; 109; 233; 0x20AC; 46; 112; 100; 102].

(** * Properties *)

(** ** Strings *)

Lemma len_nonneg (s : string) : 0 <= len s.
Proof. unfold len. lia. Qed.

Lemma len_String (c : ascii) (s : string) : len (String c s) = len s + 1.
Proof. unfold len. cbn [String.length]. lia. Qed.

Lemma last_None (s : string) : last s = None <-> s = "".
Proof.
  split; [|intros ->; reflexivity].
  induction s as [|c [|d tl] IH]; intros H; try reflexivity; try discriminate.
  apply IH in H. discriminate.
Qed.

Lemma last_String (c : ascii) (s : string) :
  s <> "" -> last (String c s) = last s.
Proof. destruct s; [congruence | reflexivity]. Qed.

Lemma get_last (s : string) :
  String.get (String.length s - 1)%nat s = last s.
Proof.
  induction s as [|c tl IH]; [reflexivity|].
  destruct tl as [|d tl']; [reflexivity|].
  rewrite last_String by discriminate. rewrite <- IH.
  cbn [String.length]. rewrite !Nat.sub_succ, !Nat.sub_0_r. reflexivity.
Qed.

(** [url[len(url)-1]] is the last byte, and panics on the empty string. *)
Lemma index_last (s : string) : index s (len s - 1) = last s.
Proof.
  unfold index. destruct s as [|c tl]; [reflexivity|].
  rewrite len_String. pose proof (len_nonneg tl) as Hl.
  replace (len tl + 1 - 1 <? 0) with false by (symmetry; apply Z.ltb_ge; lia).
  replace (len tl + 1 <=? len tl + 1 - 1) with false
    by (symmetry; apply Z.leb_gt; lia).
  cbn [orb]. rewrite <- get_last. f_equal.
  unfold len. cbn [String.length]. lia.
Qed.

Lemma isDir_last (url : string) :
  isDir url = (c ← last url; Some (Ascii.eqb c slash)).
Proof. unfold isDir. rewrite index_last. reflexivity. Qed.

Lemma isDir_None (url : string) : isDir url = None <-> url = "".
Proof.
  rewrite isDir_last, <- last_None.
  destruct (last url); cbn; split; congruence.
Qed.

Lemma isDir_true (url : string) :
  isDir url = Some true <-> last url = Some slash.
Proof.
  rewrite isDir_last. destruct (last url) as [c|]; cbn; [|split; discriminate].
  destruct (Ascii.eqb_spec c slash) as [->|Hne]; split; congruence.
Qed.

Lemma isDir_false (url : string) :
  isDir url = Some false <-> exists c, last url = Some c /\ c <> slash.
Proof.
  rewrite isDir_last. destruct (last url) as [c|]; cbn.
  - destruct (Ascii.eqb_spec c slash) as [->|Hne]; split.
    + discriminate.
    + intros (c' & [= <-] & Hc). congruence.
    + eauto.
    + reflexivity.
  - split; [discriminate | intros (c & H & _); discriminate].
Qed.

Lemma append_nil_l (s : string) : "" +:+ s = s.
Proof. reflexivity. Qed.

Lemma append_cons (c : ascii) (a b : string) :
  String c a +:+ b = String c (a +:+ b).
Proof. reflexivity. Qed.

Lemma append_empty_r (s : string) : s +:+ "" = s.
Proof.
  induction s as [|c s IH]; [reflexivity|]. rewrite append_cons, IH.
  reflexivity.
Qed.

Lemma append_assoc (a b c : string) : (a +:+ b) +:+ c = a +:+ (b +:+ c).
Proof.
  induction a as [|x a IH]; [reflexivity|]. rewrite !append_cons, IH.
  reflexivity.
Qed.

Lemma drop_O (s : string) : drop s 0 = s.
Proof. destruct s; reflexivity. Qed.

Lemma length_drop (s : string) (n : nat) :
  (String.length (drop s n) <= String.length s)%nat.
Proof.
  revert n. induction s as [|c tl IH]; intros [|n]; cbn; try lia.
  specialize (IH n). lia.
Qed.

(** ** [path.Base] on a path that does not end in a separator *)

Lemma contains_last (s : string) (c : ascii) :
  last s = Some c -> contains s c = true.
Proof.
  induction s as [|a tl IH]; [discriminate|].
  destruct tl as [|d tl'].
  - intros [= ->]. cbn. rewrite Ascii.eqb_refl. reflexivity.
  - intros H. rewrite last_String in H by discriminate.
    change (Ascii.eqb a c || contains (String d tl') c = true).
    rewrite (IH H). apply orb_true_r.
Qed.

Lemma LastIndexByteString_spec (s : string) (c : ascii) :
  if contains s c then 0 <= LastIndexByteString s c < len s
  else LastIndexByteString s c = -1.
Proof.
  induction s as [|a tl IH]; [reflexivity|].
  cbn [contains LastIndexByteString]. rewrite len_String.
  destruct (contains tl c).
  - rewrite orb_true_r.
    destruct (Z.leb_spec 0 (LastIndexByteString tl c)); lia.
  - rewrite orb_false_r, IH. cbn.
    pose proof (len_nonneg tl). destruct (Ascii.eqb a c); lia.
Qed.

(** [path[i+1:]] after the last separator is the final segment. *)
Lemma slice_after_last_slash (s : string) :
  (if 0 <=? LastIndexByteString s slash
   then slice_from s (LastIndexByteString s slash + 1)
   else s) = finalSegment s.
Proof.
  induction s as [|a tl IH]; [reflexivity|].
  pose proof (LastIndexByteString_spec tl slash) as Hi.
  cbn [LastIndexByteString finalSegment].
  destruct (contains tl slash).
  - destruct (Z.leb_spec 0 (LastIndexByteString tl slash)) as [Hge|]; [|lia].
    rewrite <- IH.
    destruct (Z.leb_spec 0 (LastIndexByteString tl slash + 1)); [|lia].
    unfold slice_from.
    replace (Z.to_nat (LastIndexByteString tl slash + 1 + 1))
      with (S (Z.to_nat (LastIndexByteString tl slash + 1))) by lia.
    reflexivity.
  - rewrite Hi. cbn. destruct (Ascii.eqb a slash); [|reflexivity].
    cbn. apply drop_O.
Qed.

Lemma finalSegment_nonempty (s : string) (c : ascii) :
  last s = Some c -> c <> slash -> finalSegment s <> "".
Proof.
  induction s as [|a tl IH]; [discriminate|].
  intros Hl Hc. cbn [finalSegment].
  destruct (contains tl slash) eqn:Hs.
  - apply IH; [|assumption].
    rewrite last_String in Hl; [assumption|]. intros ->. discriminate.
  - destruct (Ascii.eqb_spec a slash) as [->|]; [|discriminate].
    intros ->. cbn in Hl. congruence.
Qed.

(** The final segment is the suffix without separator that follows the
    last separator. *)
Lemma finalSegment_spec (s : string) :
  exists pre,
    s = pre +:+ finalSegment s
    /\ contains (finalSegment s) slash = false
    /\ (pre = "" \/ last pre = Some slash).
Proof.
  induction s as [|a tl IH].
  - exists "". repeat split. left. reflexivity.
  - cbn [finalSegment]. destruct (contains tl slash) eqn:Hs.
    + destruct IH as (pre & Heq & Hno & Hpre).
      exists (String a pre). split; [rewrite append_cons; f_equal; exact Heq|].
      split; [assumption|].
      right. destruct Hpre as [->|Hl].
      * rewrite append_nil_l in Heq. rewrite <- Heq in Hno. congruence.
      * rewrite last_String; [assumption|]. intros ->. discriminate.
    + destruct (Ascii.eqb_spec a slash) as [->|Hne].
      * exists (String slash ""). repeat split; [assumption|].
        right. reflexivity.
      * exists "". rewrite append_nil_l. cbn [contains].
        repeat split; [|left; reflexivity].
        rewrite Hs. destruct (Ascii.eqb_spec a slash); [contradiction|].
        reflexivity.
Qed.

Lemma stripTrailingSlashes_id (fuel : nat) (s : string) (c : ascii) :
  last s = Some c -> c <> slash -> stripTrailingSlashes fuel s = s.
Proof.
  intros Hl Hc. destruct fuel as [|fuel]; [reflexivity|].
  cbn [stripTrailingSlashes]. rewrite index_last, Hl.
  rewrite bool_decide_eq_false_2 by congruence.
  rewrite andb_false_r. reflexivity.
Qed.

Lemma length_take (s : string) (n : nat) :
  (n <= String.length s)%nat -> String.length (take s n) = n.
Proof.
  revert n. induction s as [|x s IH]; intros [|n] H; cbn in *; try lia.
  rewrite IH; lia.
Qed.

(** The fuel given by [path.Base] is enough: the loop ends on a path
    that does not end in a separator. *)
Lemma stripTrailingSlashes_done (fuel : nat) (path : string) :
  (String.length path <= fuel)%nat ->
  last (stripTrailingSlashes fuel path) <> Some slash.
Proof.
  revert path. induction fuel as [|fuel IH]; intros path Hf.
  - destruct path; [discriminate|cbn in Hf; lia].
  - cbn [stripTrailingSlashes]. rewrite index_last.
    destruct (Z.ltb_spec 0 (len path)) as [Hpos|Hz]; cbn [andb].
    + destruct (bool_decide (last path = Some slash)) eqn:E.
      * apply IH. unfold slice_to, len in *.
        rewrite length_take by lia. lia.
      * apply bool_decide_eq_false in E. exact E.
    + unfold len in Hz. destruct path; [discriminate|cbn in Hz; lia].
Qed.

Lemma Base_finalSegment (url : string) (c : ascii) :
  last url = Some c -> c <> slash -> Base url = finalSegment url.
Proof.
  intros Hl Hc. unfold Base.
  destruct (String.eqb_spec url "") as [->|_]; [discriminate|].
  rewrite (stripTrailingSlashes_id _ _ _ Hl Hc).
  rewrite slice_after_last_slash.
  pose proof (finalSegment_nonempty _ _ Hl Hc) as Hne.
  destruct (String.eqb_spec (finalSegment url) ""); [contradiction|].
  reflexivity.
Qed.

(** ** [filepath.Ext] is the text from the last dot of the last element *)

Lemma contains_app (a b : string) (c : ascii) :
  contains (a +:+ b) c = contains a c || contains b c.
Proof.
  induction a as [|x a IH]; [reflexivity|].
  rewrite append_cons. cbn [contains]. rewrite IH. apply orb_assoc.
Qed.

Lemma finalDotSuffix_no_dot (s : string) :
  contains s dot = false -> finalDotSuffix s = "".
Proof.
  induction s as [|x s IH]; [reflexivity|].
  cbn [contains finalDotSuffix]. intros H.
  apply orb_false_iff in H as [Hx Hs]. rewrite Hs, Hx. reflexivity.
Qed.

Lemma finalDotSuffix_app (a b : string) :
  contains b dot = false ->
  finalDotSuffix (a +:+ b)
  = if contains a dot then finalDotSuffix a +:+ b else "".
Proof.
  intros Hb. induction a as [|x a IH].
  - rewrite append_nil_l. apply finalDotSuffix_no_dot. exact Hb.
  - rewrite append_cons. cbn [finalDotSuffix contains].
    rewrite contains_app, Hb, orb_false_r, IH.
    destruct (contains a dot).
    + rewrite orb_true_r. reflexivity.
    + rewrite orb_false_r. destruct (Ascii.eqb x dot); reflexivity.
Qed.

Lemma finalDotSuffix_snoc_dot (a : string) :
  finalDotSuffix (a +:+ String dot "") = String dot "".
Proof.
  induction a as [|x a IH]; [reflexivity|].
  rewrite append_cons. cbn [finalDotSuffix].
  rewrite contains_app. cbn [contains]. rewrite Ascii.eqb_refl.
  rewrite orb_true_r. exact IH.
Qed.

Lemma string_snoc (s : string) (n : nat) :
  String.length s = S n ->
  exists s' c, s = s' +:+ String c "" /\ String.length s' = n.
Proof.
  revert n. induction s as [|x s IH]; intros n H; [discriminate|].
  cbn [String.length] in H. injection H as H.
  destruct s as [|y s].
  - exists "", x. cbn in H. subst n. split; reflexivity.
  - destruct n as [|n]; [discriminate|].
    destruct (IH n H) as (s' & c & Hs & Hl).
    exists (String x s'), c. rewrite append_cons, <- Hs.
    split; [reflexivity|]. cbn [String.length]. congruence.
Qed.

Lemma get_app_length (a : string) (c : ascii) (b : string) :
  String.get (String.length a) (a +:+ String c b) = Some c.
Proof. induction a as [|x a IH]; [reflexivity|exact IH]. Qed.

Lemma drop_app_length (a b : string) : drop (a +:+ b) (String.length a) = b.
Proof.
  induction a as [|x a IH]; [apply drop_O|].
  rewrite append_cons. exact IH.
Qed.

Lemma ExtLoop_spec (n : nat) (pre suf : string) :
  String.length pre = n ->
  contains suf dot = false ->
  contains suf slash = false ->
  ExtLoop (pre +:+ suf) n = extensionOf (pre +:+ suf).
Proof.
  revert pre suf. induction n as [|i IH]; intros pre suf Hn Hd Hs.
  - destruct pre; [|discriminate]. rewrite append_nil_l.
    unfold extensionOf. rewrite finalDotSuffix_no_dot by exact Hd.
    reflexivity.
  - destruct (string_snoc _ _ Hn) as (pre' & c & -> & Hl).
    rewrite append_assoc, append_cons, append_nil_l.
    cbn [ExtLoop]. rewrite <- Hl, get_app_length.
    unfold IsPathSeparator.
    destruct (Ascii.eqb_spec c slash) as [->|Hns].
    + unfold extensionOf.
      rewrite finalDotSuffix_app by (cbn [contains]; rewrite Hd; reflexivity).
      destruct (contains pre' dot); [|reflexivity].
      rewrite contains_app. cbn [contains]. rewrite Ascii.eqb_refl.
      rewrite orb_true_r. reflexivity.
    + destruct (Ascii.eqb_spec c dot) as [->|Hnd].
      * rewrite drop_app_length. unfold extensionOf.
        change (String dot suf) with (String dot "" +:+ suf).
        rewrite <- append_assoc, finalDotSuffix_app by exact Hd.
        rewrite contains_app. cbn [contains]. rewrite Ascii.eqb_refl.
        rewrite orb_true_r, finalDotSuffix_snoc_dot.
        rewrite append_cons, append_nil_l. cbn [contains].
        rewrite Hs. reflexivity.
      * rewrite Hl. apply IH; [exact Hl| |]; cbn [contains].
        -- rewrite Hd. destruct (Ascii.eqb_spec c dot); [contradiction|].
           reflexivity.
        -- rewrite Hs. destruct (Ascii.eqb_spec c slash); [contradiction|].
           reflexivity.
Qed.

(** [filepath.Ext] computes the extension. *)
Lemma Ext_extensionOf (path : string) : Ext path = extensionOf path.
Proof.
  unfold Ext. rewrite <- (append_empty_r path) at 1 3.
  rewrite (ExtLoop_spec (String.length path) path "") by reflexivity.
  reflexivity.
Qed.

(** ** Bytes *)

Lemma byteZ_range (c : ascii) : 0 <= byteZ c < 256.
Proof.
  unfold byteZ. pose proof (N_ascii_bounded c). lia.
Qed.

Lemma byte_small (z : Z) : 0 <= z < 256 -> byte z = z.
Proof. intros H. unfold byte. apply Z.mod_small. exact H. Qed.

Lemma byte_range (z : Z) : 0 <= byte z < 256.
Proof. unfold byte. apply Z.mod_pos_bound. lia. Qed.

Lemma ascii_of_byte_byteZ (c : ascii) : ascii_of_byte (byteZ c) = c.
Proof.
  unfold ascii_of_byte. rewrite byte_small by apply byteZ_range.
  unfold byteZ. rewrite N2Z.id. apply ascii_N_embedding.
Qed.

Lemma byteZ_ascii_of_byte (z : Z) : byteZ (ascii_of_byte z) = byte z.
Proof.
  unfold ascii_of_byte, byteZ. pose proof (byte_range z) as Hr.
  rewrite N_ascii_embedding by lia. lia.
Qed.

Lemma byteZ_inj (c d : ascii) : byteZ c = byteZ d -> c = d.
Proof.
  intros H. rewrite <- (ascii_of_byte_byteZ c), <- (ascii_of_byte_byteZ d).
  congruence.
Qed.

Lemma byteZ_dquote : byteZ dquote = 34.
Proof. reflexivity. Qed.

Lemma byteZ_backslash : byteZ backslash = 92.
Proof. reflexivity. Qed.






(** ** Quoted-string content *)

Lemma allSafe_app (a b : string) :
  allSafe a = true -> allSafe b = true -> allSafe (a +:+ b) = true.
Proof.
  intros Ha Hb. induction a as [|c a IH]; [exact Hb|].
  rewrite append_cons. cbn [allSafe] in *.
  apply andb_true_iff in Ha as [Hc Ha]. rewrite Hc, (IH Ha). reflexivity.
Qed.






(** ** UTF-8 encoding emits safe bytes *)

Lemma bytes_cons (z : Z) (l : list Z) :
  utf8.bytes (z :: l) = String (ascii_of_byte z) (utf8.bytes l).
Proof. reflexivity. Qed.





(** ** UTF-8 decoding yields runes below [2 ^ 21] *)

Lemma lor_bound (n a b : Z) :
  0 <= n -> 0 <= a < 2 ^ n -> 0 <= b < 2 ^ n -> 0 <= Z.lor a b < 2 ^ n.
Proof.
  intros Hn Ha Hb. split; [apply Z.lor_nonneg; lia|].
  destruct (Z.eq_dec (Z.lor a b) 0) as [->|Hnz]; [lia|].
  assert (0 < Z.lor a b) as Hpos.
  { assert (0 <= Z.lor a b) by (apply Z.lor_nonneg; lia). lia. }
  apply Z.log2_lt_pow2; [exact Hpos|].
  rewrite Z.log2_lor by lia.
  assert (forall x, 0 <= x < 2 ^ n -> 0 < n -> Z.log2 x < n) as Hlog.
  { intros x Hx Hn'. destruct (Z.eq_dec x 0) as [->|]; [cbn; lia|].
    apply Z.log2_lt_pow2; lia. }
  assert (0 < n) as Hn'.
  { destruct (Z.eq_dec n 0) as [->|]; [|lia].
    change (2 ^ 0) with 1 in *. assert (a = 0) as -> by lia.
    assert (b = 0) as -> by lia. cbn in Hnz. contradiction. }
  specialize (Hlog a Ha Hn') as Hla. specialize (Hlog b Hb Hn'). lia.
Qed.

Lemma land_ones_shiftl_bound (a j k : Z) :
  0 <= j -> 0 <= k -> j + k <= 21 ->
  0 <= Z.shiftl (Z.land a (Z.ones j)) k < 2 ^ 21.
Proof.
  intros Hj Hk Hjk. rewrite Z.land_ones by exact Hj.
  rewrite Z.shiftl_mul_pow2 by exact Hk.
  pose proof (Z.mod_pos_bound a (2 ^ j) ltac:(apply Z.pow_pos_nonneg; lia)).
  assert (0 < 2 ^ k) by (apply Z.pow_pos_nonneg; lia).
  assert (2 ^ j * 2 ^ k <= 2 ^ 21).
  { rewrite <- Z.pow_add_r by lia. apply Z.pow_le_mono_r; lia. }
  nia.
Qed.

Lemma land_ones_bound (a j : Z) :
  0 <= j <= 21 -> 0 <= Z.land a (Z.ones j) < 2 ^ 21.
Proof.
  intros Hj. rewrite <- (Z.shiftl_0_r (Z.land a (Z.ones j))).
  apply land_ones_shiftl_bound; lia.
Qed.

Lemma byteAt_range (s : string) (i : nat) : 0 <= byteAt s i < 256.
Proof.
  unfold byteAt. destruct (String.get i s); [apply byteZ_range | lia].
Qed.

Lemma mask_as : Z.shiftr (int32 (Z.shiftl utf8.as_ 31)) 31 = 0.
Proof. reflexivity. Qed.

Lemma mask_xx : Z.shiftr (int32 (Z.shiftl utf8.xx 31)) 31 = -1.
Proof. reflexivity. Qed.

(** The entries of [first] are the nine named constants. *)
Lemma first_cases (b : Z) :
  In (utf8.first b)
     [utf8.as_; utf8.xx; utf8.s1; utf8.s2; utf8.s3; utf8.s4; utf8.s5;
      utf8.s6; utf8.s7].
Proof.
  unfold utf8.first.
  repeat match goal with
         | |- context [if ?c then _ else _] => destruct c
         end; cbn; tauto.
Qed.

Ltac rune_bound :=
  cbn [fst];
  change utf8.mask2 with (Z.ones 5); change utf8.mask3 with (Z.ones 4);
  change utf8.mask4 with (Z.ones 3); change utf8.maskx with (Z.ones 6);
  repeat (apply (lor_bound 21); [lia| |]);
  first [apply land_ones_shiftl_bound; lia | apply land_ones_bound; lia].

Ltac rune_const :=
  cbn [fst]; unfold utf8.RuneError; change (2 ^ 21) with 2097152; lia.

Lemma DecodeRuneInString_range (s : string) :
  0 <= fst (utf8.DecodeRuneInString s) < 2 ^ 21.
Proof.
  unfold utf8.DecodeRuneInString.
  destruct (len s <? 1); [rune_const|].
  pose proof (first_cases (byteAt s 0)) as Hf.
  pose proof (byteAt_range s 0) as H0.
  cbn [In] in Hf.
  destruct Hf as [<-|[<-|Hf]].
  - change (utf8.as_ <=? utf8.as_) with true. cbn iota.
    rewrite mask_as. cbn [fst].
    change (Z.lnot 0) with (-1).
    rewrite Z.land_m1_r, Z.land_0_r, Z.lor_0_r. rune_const.
  - change (utf8.as_ <=? utf8.xx) with true. cbn iota.
    rewrite mask_xx. cbn [fst].
    change (Z.lnot (-1)) with 0.
    rewrite Z.land_0_r, Z.land_m1_r, Z.lor_0_l. rune_const.
  - repeat (destruct Hf as [<-|Hf]; [|]); [..|contradiction];
      match goal with
      | |- context [utf8.as_ <=? ?x] =>
          change (utf8.as_ <=? x) with false; cbn iota
      end;
      repeat match goal with
             | |- context [if ?c then _ else _] => destruct c
             end; try rune_const; rune_bound.
Qed.

Lemma DecodeRuneInString_width (s : string) :
  s <> "" ->
  1 <= snd (utf8.DecodeRuneInString s) <= 4.
Proof.
  intros Hs. unfold utf8.DecodeRuneInString.
  assert ((len s <? 1) = false) as ->.
  { apply Z.ltb_ge. destruct s; [contradiction|]. rewrite len_String.
    pose proof (len_nonneg s). lia. }
  repeat match goal with
         | |- context [if ?c then _ else _] => destruct c
         end; cbn; lia.
Qed.

Lemma byteAt_0 (x : ascii) (s : string) : byteAt (String x s) 0 = byteZ x.
Proof. reflexivity. Qed.

Lemma byteAt_S (x : ascii) (s : string) (i : nat) :
  byteAt (String x s) (S i) = byteAt s i.
Proof. reflexivity. Qed.

(** For a leading byte of a multi-byte sequence, fix the entry of
    [first]: the size and the accepted range of the second byte become
    numerals. *)
Ltac decode_entry :=
  match goal with
  | |- context [utf8.as_ <=? ?x] =>
      let b := eval vm_compute in (utf8.as_ <=? x) in
      change (utf8.as_ <=? x) with b; cbn iota
  end;
  try match goal with
    | |- context [Z.land ?x 7] =>
        let v := eval vm_compute in (Z.land x 7) in
        change (Z.land x 7) with v;
        let l := eval vm_compute in (utf8.lo (utf8.acceptRanges (Z.shiftr x 4))) in
        change (utf8.lo (utf8.acceptRanges (Z.shiftr x 4))) with l;
        let h := eval vm_compute in (utf8.hi (utf8.acceptRanges (Z.shiftr x 4))) in
        change (utf8.hi (utf8.acceptRanges (Z.shiftr x 4))) with h
    end;
  repeat match goal with
    | |- context [?k <=? 2] =>
        let b := eval vm_compute in (k <=? 2) in
        change (k <=? 2) with b; cbn iota
    | |- context [?k <=? 3] =>
        let b := eval vm_compute in (k <=? 3) in
        change (k <=? 3) with b; cbn iota
    end.

Lemma DecodeRuneInString_width_le (a : string) :
  a <> "" -> snd (utf8.DecodeRuneInString a) <= len a.
Proof.
  intros Ha. unfold utf8.DecodeRuneInString.
  destruct (Z.ltb_spec (len a) 1) as [Hlt|Hge].
  { destruct a as [|x tl]; [contradiction|]. rewrite len_String in Hlt.
    pose proof (len_nonneg tl). lia. }
  pose proof (first_cases (byteAt a 0)) as Hf. cbn [In] in Hf.
  repeat (destruct Hf as [<-|Hf]; [|]); [..|contradiction];
    decode_entry; try (cbn [snd]; lia);
    match goal with
    | |- context [len a <? ?k] => destruct (Z.ltb_spec (len a) k)
    end;
    repeat match goal with
           | |- context [if ?c then _ else _] => destruct c
           end; cbn [snd]; lia.
Qed.

Lemma len_app (a b : string) : len (a +:+ b) = len a + len b.
Proof.
  induction a as [|x a IH]; [change (len b = 0 + len b); lia|].
  rewrite append_cons, !len_String, IH. lia.
Qed.



Section QuoteFacts.

Variable isPrintTable : Z -> bool.
Variable isInGraphicList : Z -> bool.

Abbreviation escapedRune := (strconv.escapedRune isPrintTable isInGraphicList).
Abbreviation quotedBody := (strconv.quotedBody isPrintTable isInGraphicList).
Abbreviation Quote := (strconv.Quote isPrintTable isInGraphicList).




Lemma quotedBody_cons (c : ascii) (tl : string) (quote : ascii)
      (ASCIIonly graphicOnly : bool) :
  quotedBody (String c tl) quote ASCIIonly graphicOnly =
  let rw :=
    if utf8.RuneSelf <=? byteZ c
    then utf8.DecodeRuneInString (String c tl)
    else (byteZ c, 1) in
  (if (snd rw =? 1) && (fst rw =? utf8.RuneError) then
     "\x" +:+ String (strconv.hexdigit (Z.shiftr (byteZ c) 4))
                (String (strconv.hexdigit (Z.land (byteZ c) 0xF)) "")
   else escapedRune (fst rw) quote ASCIIonly graphicOnly)
  +:+ quotedBody (drop tl (Z.to_nat (snd rw - 1))) quote ASCIIonly graphicOnly.
Proof.
  cbn [strconv.quotedBody].
  destruct (if utf8.RuneSelf <=? byteZ c
            then utf8.DecodeRuneInString (String c tl)
            else (byteZ c, 1)) as [r width].
  reflexivity.
Qed.






(** A name of plain bytes is copied unchanged. *)
Lemma quotedBody_plain (s : string) :
  plainName s = true -> quotedBody s dquote false false = s.
Proof.
  induction s as [|c tl IH]; [reflexivity|].
  cbn [plainName]. intros H. apply andb_true_iff in H as [Hc Htl].
  unfold plainByte in Hc.
  apply andb_true_iff in Hc as [Hc Hb]. apply andb_true_iff in Hc as [Hc Hq].
  apply andb_true_iff in Hc as [Hlo Hhi].
  apply Z.leb_le in Hlo, Hhi.
  apply negb_true_iff in Hq, Hb.
  rewrite quotedBody_cons.
  assert ((utf8.RuneSelf <=? byteZ c) = false) as ->
    by (apply Z.leb_gt; change utf8.RuneSelf with 128; lia).
  cbv zeta. cbn [fst snd].
  assert ((byteZ c =? utf8.RuneError) = false) as ->
    by (apply Z.eqb_neq; change utf8.RuneError with 65533; lia).
  rewrite andb_false_r. change (Z.to_nat (1 - 1)) with 0%nat.
  rewrite drop_O, (IH Htl).
  unfold strconv.escapedRune.
  assert ((byteZ c =? byteZ dquote) = false) as ->.
  { apply Z.eqb_neq. intros E. apply byteZ_inj in E. subst c.
    rewrite Ascii.eqb_refl in Hq. discriminate. }
  assert ((byteZ c =? byteZ backslash) = false) as ->.
  { apply Z.eqb_neq. intros E. apply byteZ_inj in E. subst c.
    rewrite Ascii.eqb_refl in Hb. discriminate. }
  cbn [orb andb negb].
  assert (strconv.IsPrint isPrintTable (byteZ c) = true) as ->.
  { unfold strconv.IsPrint.
    destruct (Z.leb_spec (byteZ c) 255); [|lia].
    destruct (Z.leb_spec 32 (byteZ c)); [|lia].
    destruct (Z.leb_spec (byteZ c) 126); [|lia]. reflexivity. }
  cbn [orb]. unfold utf8.encodeRune, uint32.
  rewrite Z.mod_small by lia.
  destruct (Z.leb_spec (byteZ c) utf8.rune1Max) as [_|Hgt];
    [|change utf8.rune1Max with 127 in Hgt; lia].
  rewrite bytes_cons, byte_small by lia.
  rewrite ascii_of_byte_byteZ. reflexivity.
Qed.

Lemma Quote_shape (s : string) :
  Quote s = String dquote (quotedBody s dquote false false +:+ String dquote "").
Proof. reflexivity. Qed.

End QuoteFacts.

(** ** The request handler *)

Lemma CanonicalMIMEHeaderKey_disposition :
  CanonicalMIMEHeaderKey "Content-Disposition" = "Content-Disposition".
Proof. reflexivity. Qed.

Lemma SetHeader_lookup (w : ResponseWriter) (value : string) :
  Resp_Header (SetHeader w "Content-Disposition" value)
    !! "Content-Disposition" = Some [value].
Proof.
  unfold SetHeader, Header_Set. cbn [Resp_Header].
  rewrite CanonicalMIMEHeaderKey_disposition. apply lookup_insert_eq.
Qed.

Lemma SetHeader_body (w : ResponseWriter) (key value : string) :
  Resp_Body (SetHeader w key value) = Resp_Body w.
Proof. reflexivity. Qed.



(** A write leaves the header map alone. *)
Lemma WriteHeaderOK_header (w : ResponseWriter) :
  Resp_Header (WriteHeaderOK w) = Resp_Header w.
Proof. unfold WriteHeaderOK. destruct (Resp_wroteHeader w); reflexivity. Qed.

Lemma WriteString_header (w : ResponseWriter) (s : string) :
  Resp_Header (WriteString w s) = Resp_Header w.
Proof.
  unfold WriteString.
  destruct (Resp_wroteHeader w) eqn:Hw;
    repeat match goal with
           | |- context [if ?b then _ else _] => destruct b
           end;
    cbn [written_more Resp_Header]; rewrite ?WriteHeaderOK_header;
    reflexivity.
Qed.






Section HandlerFacts.

Variable TypeByExtension : string -> string.
Variable isPrintTable : Z -> bool.
Variable isInGraphicList : Z -> bool.
Variable FileServer : string -> Handler.

Abbreviation handler' :=
  (handler TypeByExtension isPrintTable isInGraphicList FileServer).
Abbreviation handlerMainGo :=
  (MainGo.handler TypeByExtension isPrintTable isInGraphicList FileServer).
Abbreviation Quote' := (strconv.Quote isPrintTable isInGraphicList).

(** On a path ending in the separator: delegate, then write the style. *)
Lemma handler_directory (args : Args) (w : ResponseWriter) (r : Request)
      (out : string) :
  isDir (URL_Path r) = Some true ->
  handler' args w r out =
  Some {| response := WriteString (FileServer (folder args) w r) style;
          stdout := consoleAfter args out (logLine (fileHandler_request r)) |}.
Proof. intros H. unfold handler. rewrite H. reflexivity. Qed.

(** On any other non-empty path: set the header for a media file, then
    delegate. *)
Lemma handler_file (args : Args) (w : ResponseWriter) (r : Request)
      (out : string) :
  isDir (URL_Path r) = Some false ->
  handler' args w r out =
  Some {| response :=
            FileServer (folder args)
              (if isMedia TypeByExtension (Base (URL_Path r))
               then SetHeader w "Content-Disposition"
                      ("attachment; filename=" +:+ Quote' (Base (URL_Path r)))
               else w) r;
          stdout := consoleAfter args out (logLine (fileHandler_request r)) |}.
Proof. intros H. unfold handler. rewrite H. reflexivity. Qed.

(** The switch of [isMedia] is the membership in its table, which holds
    no empty type. *)
Lemma inMediaTypes_iff (m : string) :
  inMediaTypes m = true <-> In m mediaTypes.
Proof.
  unfold inMediaTypes. rewrite existsb_exists. split.
  - intros (x & Hx & E). apply String.eqb_eq in E. subst x. exact Hx.
  - intros H. exists m. split; [exact H|apply String.eqb_refl].
Qed.

Lemma mediaTypes_not_empty : ~ In "" mediaTypes.
Proof.
  intros H. apply inMediaTypes_iff in H. discriminate.
Qed.

Lemma handler_empty (args : Args) (w : ResponseWriter) (r : Request)
      (out : string) :
  isDir (URL_Path r) = None -> handler' args w r out = None.
Proof. intros H. unfold handler. rewrite H. reflexivity. Qed.

(** The two variants of the handler build the same response. *)
Lemma handler_variants (args : Args) (w : ResponseWriter) (r : Request)
      (out : string) :
  response <$> handlerMainGo args w r out = response <$> handler' args w r out.
Proof.
  unfold handler, MainGo.handler. destruct (isDir (URL_Path r)); reflexivity.
Qed.

(** C9. The directory test of the handler indexes the request path at
    [len(url)-1] without a guard: the index is out of range exactly for
    the empty path, and the handler (in both variants) panics exactly
    there; on every non-empty path it returns. *)
Theorem handler_panics_iff_empty_path (args : Args) (w : ResponseWriter)
        (r : Request) (out : string) :
  (index (URL_Path r) (len (URL_Path r) - 1) = None <-> URL_Path r = "")
  /\ (handler' args w r out = None <-> URL_Path r = "")
  /\ (handlerMainGo args w r out = None <-> URL_Path r = "").
Proof.
  split; [rewrite index_last; apply last_None|].
  rewrite <- !isDir_None.
  unfold handler, MainGo.handler.
  destruct (isDir (URL_Path r)); cbn; split; split; congruence.
Qed.

(** C2. A path is classified as a directory request exactly when its
    final byte is the separator; on such a path the handler (in both
    variants) hands the response to the delegate untouched, so that no
    Content-Disposition is set, and the headers of the result are those
    the delegate left. *)
Theorem directory_request_sets_no_disposition (args : Args)
        (w : ResponseWriter) (r : Request) (out : string) :
  (isDir (URL_Path r) = Some true <-> endsInSlash (URL_Path r) = true)
  /\ (endsInSlash (URL_Path r) = true ->
      (exists s,
         handler' args w r out = Some s
         /\ response s = WriteString (FileServer (folder args) w r) style
         /\ Resp_Header (response s)
            = Resp_Header (FileServer (folder args) w r))
      /\ response <$> handlerMainGo args w r out
         = Some (WriteString (FileServer (folder args) w r) style)).
Proof.
  assert (isDir (URL_Path r) = Some true <-> endsInSlash (URL_Path r) = true)
    as Hiff.
  { rewrite isDir_true. unfold endsInSlash. rewrite bool_decide_eq_true.
    reflexivity. }
  split; [exact Hiff|]. intros H. apply Hiff in H. split.
  - eexists. split; [apply handler_directory; exact H|].
    split; [reflexivity|]. cbn [response]. apply WriteString_header.
  - rewrite handler_variants, (handler_directory _ _ _ _ H). reflexivity.
Qed.


(** C1. On a path that does not end in the separator, the name given to
    [isMedia] is the final segment of the path.  The table of [isMedia]
    holds the twenty-eight media, document and archive types listed
    here.  When the MIME type of the extension of the name is one of
    them, the delegate receives the response with Content-Disposition
    set to [attachment; filename=] followed by the quoted final segment
    (the segment itself between two quotes when it is made of plain
    bytes).  When the type is not in the table, and so when the
    extension has no type at all, [isMedia] is false and the delegate
    receives the response untouched. *)
Theorem media_file_forces_download (args : Args) (w : ResponseWriter)
        (r : Request) (out : string) :
  isDir (URL_Path r) = Some false ->
  let name := finalSegment (URL_Path r) in
  let mime := TypeByExtension (Ext name) in
  let value := "attachment; filename=" +:+ Quote' name in
  Base (URL_Path r) = name
  /\ (plainName name = true ->
      value = "attachment; filename="
              +:+ String dquote (name +:+ String dquote ""))
  /\ (forall m,
        In m mediaTypes <->
        In m [ "image/jpeg"; "image/png"; "image/gif";
               "video/mp4"; "video/mpeg"; "video/webm"; "video/quicktime";
               "application/pdf";
               "application/msword";
               "application/vnd.openxmlformats-officedocument.wordprocessingml.document";
               "application/vnd.ms-powerpoint";
               "application/vnd.openxmlformats-officedocument.presentationml.presentation";
               "application/vnd.ms-excel";
               "application/vnd.openxmlformats-officedocument.spreadsheetml.sheet";
               "audio/mpeg"; "audio/wav"; "audio/ogg"; "audio/midi";
               "application/ogg";
               "application/x-7z-compressed"; "application/zip";
               "application/x-rar-compressed"; "application/x-tar";
               "application/x-bzip2"; "application/x-gzip";
               "application/x-zip-compressed"; "application/x-tar-gz";
               "application/x-compressed-tar" ])
  /\ (In mime mediaTypes ->
      isMedia TypeByExtension name = true
      /\ exists s,
          handler' args w r out = Some s
          /\ response s
             = FileServer (folder args)
                 (SetHeader w "Content-Disposition" value) r
          /\ Resp_Header (SetHeader w "Content-Disposition" value)
               !! "Content-Disposition" = Some [value])
  /\ (~ In mime mediaTypes \/ mime = "" ->
      isMedia TypeByExtension name = false
      /\ exists s,
          handler' args w r out = Some s
          /\ response s = FileServer (folder args) w r).
Proof.
  intros H name mime value.
  assert (Base (URL_Path r) = name) as HB.
  { apply isDir_false in H as (c & Hl & Hc).
    exact (Base_finalSegment _ _ Hl Hc). }
  split; [exact HB|]. split.
  { intros Hp. unfold value. rewrite Quote_shape, quotedBody_plain by exact Hp.
    reflexivity. }
  split; [intros m; reflexivity|].
  pose proof (handler_file args w r out H) as Hh. rewrite HB in Hh.
  fold value in Hh. unfold isMedia in *. fold mime in Hh |- *. split.
  - intros Hin. apply inMediaTypes_iff in Hin. rewrite Hin in Hh |- *.
    split; [reflexivity|]. eexists. split; [exact Hh|].
    split; [reflexivity|apply SetHeader_lookup].
  - intros Hout.
    assert (inMediaTypes mime = false) as Hf.
    { apply not_true_is_false. intros Hin. apply inMediaTypes_iff in Hin.
      destruct Hout as [Hout|Hout]; [exact (Hout Hin)|].
      rewrite Hout in Hin. exact (mediaTypes_not_empty Hin). }
    rewrite Hf in Hh |- *. split; [reflexivity|].
    eexists. split; [exact Hh|reflexivity].
Qed.


(** C10. [isMedia] depends on a file name through its extension only:
    two names with the same extension (as [filepath.Ext] returns it, or
    read as the text from the last dot on) are classified alike. *)
Theorem isMedia_depends_on_extension (f1 f2 : string) :
  Ext f1 = Ext f2 \/ finalDotSuffix f1 = finalDotSuffix f2 ->
  isMedia TypeByExtension f1 = isMedia TypeByExtension f2.
Proof.
  intros H. unfold isMedia. f_equal. f_equal.
  destruct H as [H|H]; [exact H|].
  rewrite !Ext_extensionOf. unfold extensionOf. rewrite H. reflexivity.
Qed.

End HandlerFacts.

(** ** Local address discovery *)

Lemma To4_length (ip p4 : IP) : To4 ip = Some p4 -> length p4 = 4%nat.
Proof.
  unfold To4, IPv4len, IPv6len.
  destruct (Z.eqb_spec (Z.of_nat (length ip)) 4) as [H4|_].
  - intros [= <-]. lia.
  - destruct (Z.eqb_spec (Z.of_nat (length ip)) 16) as [H16|_];
      [|discriminate].
    cbn [andb]. destruct (_ && _); [|discriminate].
    intros [= <-]. rewrite length_skipn. lia.
Qed.

Lemma To4_source_length (ip p4 : IP) :
  To4 ip = Some p4 -> length ip = 4%nat \/ length ip = 16%nat.
Proof.
  unfold To4, IPv4len, IPv6len.
  destruct (Z.eqb_spec (Z.of_nat (length ip)) 4) as [H4|_]; [lia|].
  destruct (Z.eqb_spec (Z.of_nat (length ip)) 16) as [H16|_]; [lia|].
  discriminate.
Qed.

(** The text of an IPv4 address is its four bytes in dotted decimal. *)
Lemma IP_String_v4 (string16 : IP -> string) (ip p4 : IP) :
  To4 ip = Some p4 -> IP_String string16 ip = string4 p4.
Proof.
  intros H. unfold IP_String. rewrite H.
  pose proof (To4_length _ _ H) as Hl.
  pose proof (To4_source_length _ _ H) as Hs.
  unfold IPv4len, IPv6len.
  destruct (Z.eqb_spec (Z.of_nat (length ip)) 0); [lia|].
  destruct (Z.eqb_spec (Z.of_nat (length ip)) 4);
    destruct (Z.eqb_spec (Z.of_nat (length ip)) 16); cbn [negb andb];
    try lia;
    (destruct (Z.eqb_spec (Z.of_nat (length p4)) 4); [reflexivity|lia]).
Qed.

(** The loop returns at the first address that qualifies. *)
Lemma rangeAddrs_find (string16 : IP -> string) (addrs : list Addr) :
  rangeAddrs string16 addrs =
  match find isLanIPv4 addrs with
  | Some (Addr_IPNet ipnet) => Some (IP_String string16 (IPNet_IP ipnet))
  | _ => None
  end.
Proof.
  induction addrs as [|addr rest IH]; [reflexivity|].
  cbn [rangeAddrs find]. destruct addr as [ipnet|network text].
  - cbn [isLanIPv4]. destruct (_ && _); [reflexivity|exact IH].
  - cbn [isLanIPv4]. exact IH.
Qed.

(** C8. [getLocalAddr] always returns a string: ["127.0.0.1"] when the
    enumeration of interfaces fails and when no address qualifies, and
    otherwise the dotted-decimal text of the first interface address
    that is a non-loopback IPv4 address. *)
Theorem getLocalAddr_first_lan_or_loopback (string16 : IP -> string) :
  (forall e, getLocalAddr string16 (Err e) = "127.0.0.1")
  /\ (forall addrs,
        find isLanIPv4 addrs = None ->
        getLocalAddr string16 (Ok addrs) = "127.0.0.1")
  /\ (forall addrs addr,
        find isLanIPv4 addrs = Some addr ->
        exists ipnet p4,
          addr = Addr_IPNet ipnet
          /\ To4 (IPNet_IP ipnet) = Some p4
          /\ IsLoopback (IPNet_IP ipnet) = false
          /\ getLocalAddr string16 (Ok addrs) = string4 p4).
Proof.
  split; [reflexivity|]. split.
  - intros addrs H. unfold getLocalAddr. rewrite rangeAddrs_find, H.
    reflexivity.
  - intros addrs addr H. pose proof (find_some _ _ H) as [_ Hq].
    destruct addr as [ipnet|]; [|discriminate]. cbn [isLanIPv4] in Hq.
    apply andb_true_iff in Hq as [Hlo H4].
    apply negb_true_iff in Hlo. apply bool_decide_eq_true in H4.
    destruct (To4 (IPNet_IP ipnet)) as [p4|] eqn:E4; [|contradiction].
    exists ipnet, p4. repeat split; try assumption.
    unfold getLocalAddr. rewrite rangeAddrs_find, H.
    apply IP_String_v4. exact E4.
Qed.

(** ** Certificate generation *)

(** [generateTLSConfig] returns exactly when a key was generated, and
    then holds the one certificate that [x509.CreateCertificate] made
    from the template, whether or not that call or [rand.Int] failed. *)
Lemma generateTLSConfig_eq (c : Crypto) :
  generateTLSConfig c =
  match GenerateKey c P256 with
  | Ok priv =>
      Some {| tls.Certificates :=
                [ {| tls.Certificate_chain :=
                       [valueOf (CreateCertificate c (certTemplate c)
                                   (certTemplate c) (ecdsa.Public priv) priv)];
                     tls.PrivateKey := priv |} ] |}
  | Err _ => None
  end.
Proof.
  unfold generateTLSConfig, certTemplate.
  destruct (GenerateKey c P256); reflexivity.
Qed.

Lemma year_in_nanoseconds :
  365 * 24 * time.Hour = 365 * 86400 * 10 ^ 9.
Proof. reflexivity. Qed.

(** C5, as the code has it.  A credential returned by
    [generateTLSConfig] holds the private key that was generated and
    what [x509.CreateCertificate] returned for one template as subject
    and as issuer, for the public key of that private key and signed
    with it: the self-signed certificate when that call succeeds, and
    no certificate ([nil]) when it fails, its error being discarded.
    The template has common name localhost, a validity of 365 days, the
    key usages digital signature and key encipherment and no other, and
    the extended key usage server authentication. *)
Theorem credential_is_self_signed_localhost (c : Crypto) (cfg : tls.Config) :
  generateTLSConfig c = Some cfg ->
  exists priv,
    let t := certTemplate c in
    let made := CreateCertificate c t t (ecdsa.Public priv) priv in
    GenerateKey c P256 = Ok priv
    /\ cfg = {| tls.Certificates :=
                  [ {| tls.Certificate_chain := [valueOf made];
                       tls.PrivateKey := priv |} ] |}
    /\ (forall der,
          made = Ok der ->
          cfg = {| tls.Certificates :=
                     [ {| tls.Certificate_chain := [Some der];
                          tls.PrivateKey := priv |} ] |})
    /\ (forall e,
          made = Err e ->
          cfg = {| tls.Certificates :=
                     [ {| tls.Certificate_chain := [None];
                          tls.PrivateKey := priv |} ] |})
    /\ x509.CommonName (x509.Subject t) = "localhost"
    /\ x509.NotBefore t = Now c
    /\ time.Sub (x509.NotAfter t) (x509.NotBefore t) = 365 * 86400 * 10 ^ 9
    /\ x509.KeyUsage t
       = Z.lor x509.KeyUsageDigitalSignature x509.KeyUsageKeyEncipherment
    /\ Z.land (x509.KeyUsage t) x509.KeyUsageContentCommitment = 0
    /\ x509.ExtKeyUsage t = [x509.ExtKeyUsageServerAuth].
Proof.
  rewrite generateTLSConfig_eq.
  destruct (GenerateKey c P256) as [priv|e]; [|discriminate].
  intros [= <-]. exists priv. cbv zeta.
  split; [reflexivity|]. split; [reflexivity|].
  split; [intros der ->; reflexivity|].
  split; [intros e ->; reflexivity|].
  repeat split.
  unfold certTemplate, template, time.Sub, time.Add. cbn [x509.NotAfter x509.NotBefore].
  rewrite year_in_nanoseconds. lia.
Qed.

(** The serial number is a draw below [2 ^ 62]. *)
Lemma serial_limit : NewInt (Z.shiftl 1 62) = 2 ^ 62.
Proof. reflexivity. Qed.




Section MainFacts.

Variable string16 : IP -> string.
Variable InterfaceAddrs : Result (list Addr).
Variable Listen : string -> option string.

(** Without a key the process crashes on the nil dereference. *)
Lemma main_without_key (c : Crypto) (f : Flags) (e : string) :
  flag_https f = true ->
  GenerateKey c P256 = Err e ->
  exit (main string16 InterfaceAddrs c Listen f) = Panicked.
Proof.
  intros Hf Hk. unfold main. cbn [https parseArgs]. rewrite Hf.
  rewrite generateTLSConfig_eq, Hk. reflexivity.
Qed.


End MainFacts.

(** * Examples on a sample host *)

Module Examples.

Import Sample.

Abbreviation serve :=
  (handler TypeByExtension isPrintTable isInGraphicList FileServer args w0).

Example Base_examples :
  Base "/docs/report.pdf" = "report.pdf" /\ Base "/images/" = "images"
  /\ Base "///" = "/" /\ Base "" = "." /\ Base "plain" = "plain".
Proof. repeat split. Qed.

Example Ext_examples :
  Ext "report.tar.gz" = ".gz" /\ Ext "a.b/c" = "" /\ Ext "noext" = ""
  /\ Ext "." = "." /\ Ext ".bashrc" = ".bashrc" /\ Ext "x." = ".".
Proof. repeat split. Qed.

(** [GET /docs/report.pdf] forces a download. *)
Example scenario_report :
  (Resp_Header ∘ response) <$> serve (get "/docs/report.pdf") ""
  = Some {[ "Content-Disposition" := [quotedReport] ]}.
Proof. vm_compute. reflexivity. Qed.

(** [GET /images/] appends the style to the listing. *)
Example scenario_images :
  (fun s => (Resp_Header (response s), Resp_Body (response s)))
    <$> serve (get "/images/") ""
  = Some (∅, listing +:+ style).
Proof. vm_compute. reflexivity. Qed.

(** [GET /notes/readme.txt] sets no header. *)
Example scenario_readme :
  (fun s => (Resp_Header (response s), Resp_Body (response s)))
    <$> serve (get "/notes/readme.txt") ""
  = Some (∅, listing).
Proof. vm_compute. reflexivity. Qed.

(** [GET /withindex/], for a folder with an index page: the page is
    sent with its declared length, and the style is refused. *)
Example scenario_index :
  (fun s => (Resp_Header (response s) !! "Content-Length",
             Resp_Body (response s), Resp_written (response s)))
    <$> handler TypeByExtension isPrintTable isInGraphicList indexServer
          args w0 (get "/withindex/") ""
  = Some (Some ["12"], indexPage, 12 + len style).
Proof. vm_compute. reflexivity. Qed.

(** A request target without a leading slash is printed with one, as
    the delegate left the request. *)
Example scenario_star :
  stdout <$> serve (get "*") ""
  = Some (logLine (get "/*")).
Proof. vm_compute. reflexivity. Qed.

(** A quote, a backslash and a newline in a name are escaped; an
    invalid byte is written in hexadecimal. *)
Example Quote_escapes :
  strconv.Quote isPrintTable isInGraphicList
    ("a" +:+ String dquote ("b\c" +:+ LF +:+ String (ascii_of_N 200) ".pdf"))
  = String dquote
      ("a\" +:+ String dquote ("b\\c\n\xc8.pdf" +:+ String dquote "")).
Proof. vm_compute. reflexivity. Qed.

Example getLocalAddr_examples :
  getLocalAddr string16 (Ok [lo; lo6; eth0; wlan0]) = "192.168.1.20"
  /\ getLocalAddr string16 (Ok [lo; Addr_other "ip" "10.1.1.1"; wlan0])
     = "10.0.0.5"
  /\ getLocalAddr string16 (Ok [lo; lo6]) = "127.0.0.1"
  /\ getLocalAddr string16 (Ok []) = "127.0.0.1"
  /\ getLocalAddr string16 (Err "route ip+net: no such network interface")
     = "127.0.0.1".
Proof. repeat split. Qed.

(** A taken port ends startup with the error of the listen call. *)
Example startup_port_taken :
  exit (main string16 (Ok [lo; wlan0]) crypto portTaken httpsFlags)
  = Fatal "listen tcp :8443: bind: address already in use".
Proof. reflexivity. Qed.

End Examples.

(** * The properties at concrete inputs *)

Lemma media_file_forces_download_witness :
  (exists s,
     handler Sample.TypeByExtension Sample.isPrintTable Sample.isInGraphicList
       Sample.FileServer Sample.args Sample.w0 (Sample.get "/docs/report.pdf") ""
     = Some s
     /\ response s
        = Sample.FileServer "public"
            (SetHeader Sample.w0 "Content-Disposition" Sample.quotedReport)
            (Sample.get "/docs/report.pdf"))
  /\ (exists s,
        handler Sample.TypeByExtension Sample.isPrintTable
          Sample.isInGraphicList Sample.FileServer Sample.args Sample.w0
          (Sample.get "/notes/readme.txt") ""
        = Some s
        /\ response s
           = Sample.FileServer "public" Sample.w0
               (Sample.get "/notes/readme.txt")).
Proof.
  split.
  - destruct (media_file_forces_download Sample.TypeByExtension
                Sample.isPrintTable Sample.isInGraphicList Sample.FileServer
                Sample.args Sample.w0 (Sample.get "/docs/report.pdf") ""
                eq_refl) as (_ & Hplain & _ & Hin & _).
    destruct Hin as (_ & s & Hs & Hr & _).
    { cbn. do 7 right. left. reflexivity. }
    exists s. split; [exact Hs|].
    rewrite Hr, (Hplain eq_refl). reflexivity.
  - destruct (media_file_forces_download Sample.TypeByExtension
                Sample.isPrintTable Sample.isInGraphicList Sample.FileServer
                Sample.args Sample.w0 (Sample.get "/notes/readme.txt") ""
                eq_refl) as (_ & _ & _ & _ & Hout).
    destruct Hout as (_ & s & Hs & Hr); [right; reflexivity|].
    exists s. split; [exact Hs|exact Hr].
Defined.

Lemma directory_request_sets_no_disposition_witness :
  exists s,
    handler Sample.TypeByExtension Sample.isPrintTable Sample.isInGraphicList
      Sample.FileServer Sample.args Sample.w0 (Sample.get "/images/") ""
    = Some s
    /\ Resp_Header (response s) = ∅.
Proof.
  destruct (directory_request_sets_no_disposition Sample.TypeByExtension
              Sample.isPrintTable Sample.isInGraphicList Sample.FileServer
              Sample.args Sample.w0 (Sample.get "/images/") "")
    as [_ H].
  destruct (H eq_refl) as [(s & Hs & _ & Hh) _].
  exists s. split; [exact Hs|]. rewrite Hh. reflexivity.
Defined.



Lemma isMedia_depends_on_extension_witness :
  finalDotSuffix "report.pdf" = finalDotSuffix "old.v2.pdf"
  /\ isMedia Sample.TypeByExtension "report.pdf"
     = isMedia Sample.TypeByExtension "old.v2.pdf".
Proof.
  split; [reflexivity|].
  apply (isMedia_depends_on_extension Sample.TypeByExtension
           "report.pdf" "old.v2.pdf").
  right. reflexivity.
Defined.

Lemma getLocalAddr_first_lan_or_loopback_witness :
  getLocalAddr Sample.string16
    (Ok [Sample.lo; Sample.lo6; Sample.eth0; Sample.wlan0])
  = "192.168.1.20".
Proof.
  destruct (getLocalAddr_first_lan_or_loopback Sample.string16)
    as (_ & _ & H).
  destruct (H [Sample.lo; Sample.lo6; Sample.eth0; Sample.wlan0]
              Sample.eth0 eq_refl) as (ipnet & p4 & Ha & H4 & _ & Hr).
  rewrite Hr. injection Ha as <-. cbn in H4. injection H4 as <-.
  reflexivity.
Defined.

Lemma credential_is_self_signed_localhost_witness :
  exists priv,
    GenerateKey Sample.crypto P256 = Ok priv
    /\ generateTLSConfig Sample.crypto
       = Some {| tls.Certificates :=
                   [ {| tls.Certificate_chain :=
                          [Some "subject=localhost issuer=localhost serial=4611686018427387903"];
                        tls.PrivateKey := priv |} ] |}
    /\ x509.NotAfter (certTemplate Sample.crypto)
       - x509.NotBefore (certTemplate Sample.crypto)
       = 31536000000000000.
Proof.
  destruct (credential_is_self_signed_localhost Sample.crypto _ eq_refl)
    as (priv & Hk & _ & Hder & _ & _ & _ & Hsub & _).
  exists priv. split; [exact Hk|]. split; [|exact Hsub].
  injection Hk as <-. exact (f_equal Some (Hder _ eq_refl)).
Defined.

(** The certificate cannot be built: the credential that is returned
    holds a key and no certificate, so that it is not a self-signed
    certificate. *)
Lemma credential_can_hold_no_certificate :
  generateTLSConfig Sample.cryptoNoCert
  = Some {| tls.Certificates :=
              [ {| tls.Certificate_chain := [None];
                   tls.PrivateKey := Sample.key |} ] |}
  /\ ~ (forall c cfg,
          generateTLSConfig c = Some cfg ->
          exists cert der,
            tls.Certificates cfg = [cert]
            /\ tls.Certificate_chain cert = [Some der]).
Proof.
  split; [reflexivity|]. intros H.
  destruct (H Sample.cryptoNoCert _ eq_refl) as (cert & der & Hc & Hd).
  cbn in Hc. injection Hc as <-. discriminate.
Qed.






(** * Further properties *)

(** ** The header value holds no control byte *)










Section QuoteControl.

Variable isPrintTable : Z -> bool.
Variable isInGraphicList : Z -> bool.





End QuoteControl.

(** ** More on the handler *)


Lemma logLine_split (r : Request) :
  exists pre post,
    MainGo.logLine r = pre +:+ post
    /\ logLine r = pre +:+ (URL_Path r +:+ " ") +:+ post.
Proof.
  exists (ESC +:+ "[1m" +:+ ESC +:+ "[38;5;228m" +:+ Method r +:+ " ").
  eexists. unfold MainGo.logLine, logLine.
  split; rewrite !append_assoc; reflexivity.
Qed.

(** The delegate changes the path of the request and nothing else, and
    the path only when it does not start with a slash. *)
Lemma HasPrefix_slash (s : string) :
  HasPrefix s "/" = true <-> index s 0 = Some slash.
Proof.
  destruct s as [|c tl]; [split; intros H; vm_compute in H; discriminate H|].
  unfold HasPrefix, index. rewrite len_String. pose proof (len_nonneg tl).
  replace (len tl + 1 <=? 0) with false by (symmetry; apply Z.leb_gt; lia).
  cbn [String.prefix orb Z.ltb Z.compare Z.to_nat String.get].
  destruct (ascii_dec "/" c) as [<-|Hne].
  - destruct tl; split; reflexivity.
  - split; [intros HH; discriminate HH|]. intros [= ->]. contradiction.
Qed.

Lemma fileHandler_request_path (r : Request) :
  (index (URL_Path r) 0 = Some slash -> fileHandler_request r = r)
  /\ (index (URL_Path r) 0 <> Some slash ->
      URL_Path (fileHandler_request r) = "/" +:+ URL_Path r).
Proof.
  unfold fileHandler_request. rewrite <- HasPrefix_slash.
  destruct (HasPrefix (URL_Path r) "/"); split; intros H;
    try reflexivity; try discriminate.
  contradiction H. reflexivity.
Qed.

Lemma fileHandler_request_rest (r : Request) :
  Method (fileHandler_request r) = Method r
  /\ Proto (fileHandler_request r) = Proto r
  /\ RemoteAddr (fileHandler_request r) = RemoteAddr r
  /\ Req_Header (fileHandler_request r) = Req_Header r.
Proof.
  unfold fileHandler_request.
  destruct (negb (HasPrefix (URL_Path r) "/")); repeat split.
Qed.

Lemma MainGo_logLine_served (r : Request) :
  MainGo.logLine (fileHandler_request r) = MainGo.logLine r.
Proof.
  unfold MainGo.logLine.
  destruct (fileHandler_request_rest r) as (-> & -> & -> & ->). reflexivity.
Qed.

Section HandlerMore.

Variable TypeByExtension : string -> string.
Variable isPrintTable : Z -> bool.
Variable isInGraphicList : Z -> bool.
Variable FileServer : string -> Handler.

Abbreviation handle :=
  (handler TypeByExtension isPrintTable isInGraphicList FileServer).
Abbreviation handleMainGo :=
  (MainGo.handler TypeByExtension isPrintTable isInGraphicList FileServer).


(** X3. The flags [silent], [port] and [https] have no effect on the
    response: only the served folder does.  The console gets exactly
    one request line after a request when [silent] is off and nothing
    when it is on; a request with the empty path, on which the handler
    panics, prints nothing.  The line is printed after the delegate has
    run, and shows the request as the delegate left it: the path with a
    slash put in front when it had none (a request for [*] is printed
    as [/*]), everything else as it was received. *)
Theorem flags_affect_console_only (args1 args2 : Args) (w : ResponseWriter)
        (r : Request) (out : string) :
  folder args1 = folder args2 ->
  let r' := fileHandler_request r in
  response <$> handle args1 w r out = response <$> handle args2 w r out
  /\ stdout <$> handle args1 w r out
     = (if bool_decide (URL_Path r = "") then None
        else if silent args1 then Some out
        else Some (out +:+ logLine r'))
  /\ (index (URL_Path r) 0 = Some slash -> r' = r)
  /\ (index (URL_Path r) 0 <> Some slash ->
      URL_Path r' = "/" +:+ URL_Path r)
  /\ Method r' = Method r /\ Proto r' = Proto r
  /\ RemoteAddr r' = RemoteAddr r /\ Req_Header r' = Req_Header r.
Proof.
  intros Hf r'. split; [|split].
  - unfold handler. rewrite Hf.
    destruct (isDir (URL_Path r)); reflexivity.
  - unfold handler. destruct (isDir (URL_Path r)) as [b|] eqn:E.
    + rewrite bool_decide_eq_false_2.
      * cbn. destruct (silent args1); reflexivity.
      * intros H. apply isDir_None in H. congruence.
    + apply isDir_None in E.
      rewrite bool_decide_eq_true_2 by exact E. reflexivity.
  - destruct (fileHandler_request_path r) as [H1 H2].
    split; [exact H1|]. split; [exact H2|].
    apply fileHandler_request_rest.
Qed.

(** X4. The handler of [main.go] and the handler of the newer variant
    build the same response on every request and panic on the same
    requests; they differ in the printed request line only, which in
    the newer variant has the request path and a space inserted after
    the method: the path as the delegate left it, with a slash put in
    front when it had none. *)
Theorem handler_variants_differ_in_log_only (args : Args)
        (w : ResponseWriter) (r : Request) (out : string) :
  response <$> handleMainGo args w r out = response <$> handle args w r out
  /\ (handleMainGo args w r out = None <-> handle args w r out = None)
  /\ (silent args = true -> handleMainGo args w r out = handle args w r out)
  /\ exists pre post,
      let path := URL_Path (fileHandler_request r) in
      MainGo.logLine r = pre +:+ post
      /\ logLine (fileHandler_request r) = pre +:+ (path +:+ " ") +:+ post
      /\ (index (URL_Path r) 0 = Some slash -> path = URL_Path r)
      /\ (index (URL_Path r) 0 <> Some slash -> path = "/" +:+ URL_Path r)
      /\ (silent args = false -> URL_Path r <> "" ->
          stdout <$> handleMainGo args w r out = Some (out +:+ pre +:+ post)
          /\ stdout <$> handle args w r out
             = Some (out +:+ pre +:+ (path +:+ " ") +:+ post)).
Proof.
  split; [apply handler_variants|].
  split.
  { unfold handler, MainGo.handler.
    destruct (isDir (URL_Path r)); cbn; split; congruence. }
  split.
  { intros Hs. unfold handler, MainGo.handler. rewrite Hs.
    destruct (isDir (URL_Path r)); reflexivity. }
  destruct (logLine_split (fileHandler_request r)) as (pre & post & H1 & H2).
  rewrite MainGo_logLine_served in H1.
  exists pre, post. cbv zeta. split; [exact H1|]. split; [exact H2|].
  destruct (fileHandler_request_path r) as [P1 P2].
  split; [intros Hp; rewrite (P1 Hp); reflexivity|]. split; [exact P2|].
  intros Hs Hne. unfold handler, MainGo.handler. rewrite Hs.
  destruct (isDir (URL_Path r)) eqn:E;
    [|apply isDir_None in E; contradiction].
  cbn. rewrite MainGo_logLine_served, H1, H2, !append_assoc.
  split; reflexivity.
Qed.

(** X5. The file name that a forced download offers to the client is
    never empty and has no path separator in it, and the request path
    ends with it: the directories of the request path are dropped. *)
Theorem download_name_is_last_element (url : string) :
  isDir url = Some false ->
  Base url <> ""
  /\ contains (Base url) slash = false
  /\ exists dir, url = dir +:+ Base url
                 /\ (dir = "" \/ last dir = Some slash).
Proof.
  intros H. apply isDir_false in H as (c & Hl & Hc).
  rewrite (Base_finalSegment _ _ Hl Hc).
  split; [exact (finalSegment_nonempty _ _ Hl Hc)|].
  destruct (finalSegment_spec url) as (pre & Heq & Hno & Hpre).
  split; [exact Hno|]. exists pre. split; assumption.
Qed.

End HandlerMore.

(** ** More on [isMedia] *)

Section ClassifierMore.

Variable TypeByExtension : string -> string.

(** X6. The class of a name is that of its last extension, whatever
    comes before the last dot: for an extension [e] without dot and
    separator, [stem.e] is media exactly when the MIME type of [.e] is
    in the table (so [a.tar.gz] is classified as [.gz], and a name that
    is only [.e] as [.e]). *)
Theorem isMedia_by_last_extension (stem e : string) :
  contains e dot = false ->
  contains e slash = false ->
  Ext (stem +:+ String dot e) = String dot e
  /\ isMedia TypeByExtension (stem +:+ String dot e)
     = inMediaTypes (TypeByExtension (String dot e)).
Proof.
  intros Hd Hs.
  assert (Ext (stem +:+ String dot e) = String dot e) as HE.
  { rewrite Ext_extensionOf. unfold extensionOf.
    change (String dot e) with (String dot "" +:+ e).
    rewrite <- append_assoc, finalDotSuffix_app by exact Hd.
    rewrite contains_app. cbn [contains]. rewrite Ascii.eqb_refl.
    rewrite orb_true_r, finalDotSuffix_snoc_dot.
    rewrite append_cons, append_nil_l. cbn [contains]. rewrite Hs.
    reflexivity. }
  split; [exact HE|]. unfold isMedia. rewrite HE. reflexivity.
Qed.

Lemma inMediaTypes_In (m : string) :
  inMediaTypes m = true -> In m mediaTypes.
Proof.
  unfold inMediaTypes. intros H. apply existsb_exists in H as (x & Hx & E).
  apply String.eqb_eq in E. subst x. exact Hx.
Qed.

Lemma mediaTypes_plain (m : string) :
  In m mediaTypes -> m <> "" /\ contains m semicolon = false.
Proof.
  intros H. cbn in H.
  repeat (destruct H as [<-|H]; [split; [discriminate|reflexivity]|]).
  contradiction.
Qed.

(** X7. A file whose extension has no MIME type (the lookup returns the
    empty string) or a MIME type with a parameter (a semicolon, as in
    [text/html; charset=utf-8]) is never forced to download: the table
    holds bare types only. *)
Theorem unknown_or_parameterised_type_is_not_media (filename : string) :
  TypeByExtension (Ext filename) = ""
  \/ contains (TypeByExtension (Ext filename)) semicolon = true ->
  isMedia TypeByExtension filename = false.
Proof.
  intros H. unfold isMedia.
  destruct (inMediaTypes (TypeByExtension (Ext filename))) eqn:E;
    [|reflexivity].
  apply inMediaTypes_In, mediaTypes_plain in E as [Hne Hsc].
  destruct H as [H|H]; congruence.
Qed.

End ClassifierMore.

(** ** More on local addresses *)

Lemma IsLoopback_v4 (ip p4 : IP) :
  To4 ip = Some p4 -> IsLoopback ip = false -> nth 0 p4 0 <> 127.
Proof.
  intros H4. unfold IsLoopback. rewrite H4. intros H.
  apply Z.eqb_neq. exact H.
Qed.

(** X8. [getLocalAddr] never returns the text of an IPv6 address and
    never a 127.x.y.z address of an interface: its result is
    ["127.0.0.1"] or the dotted decimal of four bytes of which the
    first is not 127, whatever the IPv6 formatter of the host does. *)
Theorem getLocalAddr_is_dotted_ipv4 (string16 string16' : IP -> string)
        (res : Result (list Addr)) :
  getLocalAddr string16 res = getLocalAddr string16' res
  /\ (getLocalAddr string16 res = "127.0.0.1"
      \/ exists p4,
           length p4 = 4%nat /\ nth 0 p4 0 <> 127
           /\ getLocalAddr string16 res = string4 p4).
Proof.
  destruct res as [addrs|e]; [|split; [reflexivity|left; reflexivity]].
  unfold getLocalAddr. rewrite !rangeAddrs_find.
  destruct (find isLanIPv4 addrs) as [[ipnet|]|] eqn:E;
    try (split; [reflexivity|left; reflexivity]).
  apply find_some in E as [_ Hq]. cbn [isLanIPv4] in Hq.
  apply andb_true_iff in Hq as [Hlo H4].
  apply negb_true_iff in Hlo. apply bool_decide_eq_true in H4.
  destruct (To4 (IPNet_IP ipnet)) as [p4|] eqn:E4; [|contradiction].
  rewrite !(IP_String_v4 _ _ _ E4). split; [reflexivity|].
  right. exists p4. split; [exact (To4_length _ _ E4)|].
  split; [exact (IsLoopback_v4 _ _ E4 Hlo)|reflexivity].
Qed.

Lemma isDigit_digit (n : Z) :
  0 <= n <= 9 -> isDigit (digit n) = true /\ byteZ (digit n) - 0x30 = n.
Proof.
  intros H. unfold isDigit, digit. rewrite byteZ_ascii_of_byte.
  rewrite (byte_small (48 + n)) by lia.
  split; [|lia]. apply andb_true_iff. split; apply Z.leb_le; lia.
Qed.

Lemma readDecimal_digit (acc n : Z) (s : string) :
  0 <= n <= 9 ->
  readDecimal acc (String (digit n) s) = readDecimal (10 * acc + n) s.
Proof.
  intros H. destruct (isDigit_digit n H) as [Hd Hv].
  cbn [readDecimal]. rewrite Hd, Hv. reflexivity.
Qed.

Lemma readDecimal_stop (acc : Z) (s : string) :
  readDecimal acc (String dot s) = (acc, String dot s).
Proof. reflexivity. Qed.

(** The decimal text of a byte reads back as the byte. *)
Lemma readDecimal_appendDecimal (x : Z) (rest : string) :
  0 <= x < 256 ->
  rest = "" \/ (exists tl, rest = String dot tl) ->
  readDecimal 0 (appendDecimal x +:+ rest) = (x, rest).
Proof.
  intros Hx Hrest. unfold appendDecimal.
  assert (forall acc, readDecimal acc rest = (acc, rest)) as Hstop.
  { intros acc. destruct Hrest as [->|[tl ->]]; reflexivity. }
  assert (0 <= x mod 10 <= 9) by (pose proof (Z.mod_pos_bound x 10); lia).
  assert (0 <= x / 10 mod 10 <= 9)
    by (pose proof (Z.mod_pos_bound (x / 10) 10); lia).
  assert (0 <= x / 100 <= 9).
  { split; [apply Z.div_pos; lia|]. apply Z.div_le_upper_bound; lia. }
  destruct (Z.leb_spec 100 x); destruct (Z.leb_spec 10 x); try lia;
    repeat first [ rewrite append_cons | rewrite append_nil_l
                 | rewrite readDecimal_digit by assumption ];
    rewrite Hstop; f_equal.
  - pose proof (Z.div_mod x 10 ltac:(lia)).
    pose proof (Z.div_mod (x / 10) 10 ltac:(lia)).
    assert (x / 10 / 10 = x / 100) by (rewrite Z.div_div by lia; reflexivity).
    lia.
  - pose proof (Z.div_mod x 10 ltac:(lia)).
    assert (x / 10 mod 10 = x / 10).
    { apply Z.mod_small. split; [apply Z.div_pos; lia|].
      apply Z.div_lt_upper_bound; lia. }
    lia.
  - assert (x mod 10 = x) by (apply Z.mod_small; lia). lia.
Qed.

(** X9. The dotted decimal text of four bytes reads back as these
    bytes: two different IPv4 addresses are never printed alike. *)
Theorem dotted_decimal_round_trip (a b c d : Z) :
  0 <= a < 256 -> 0 <= b < 256 -> 0 <= c < 256 -> 0 <= d < 256 ->
  readDotted (string4 [a; b; c; d]) = Some [a; b; c; d].
Proof.
  intros Ha Hb Hc Hd. unfold string4, readDotted. cbn [nth].
  assert (forall x, "." +:+ x = String dot x) as Hdot by reflexivity.
  rewrite !Hdot.
  do 3 (rewrite readDecimal_appendDecimal; [|assumption|right; eauto];
        cbn [readDot]; rewrite Ascii.eqb_refl; cbn).
  rewrite <- (append_empty_r (appendDecimal d)).
  rewrite readDecimal_appendDecimal; [|assumption|left; reflexivity].
  reflexivity.
Qed.

(** ** More on startup *)

Section StartupMore.

Variable string16 : IP -> string.

(** X10. With [--https] the process crashes on a run-time panic exactly
    when key generation fails (the nil key is dereferenced; the error
    itself is not reported); [generateTLSConfig] returns in every other
    case.  Without [--https] startup never panics. *)
Theorem startup_panics_iff_key_generation_fails
        (InterfaceAddrs : Result (list Addr)) (c : Crypto)
        (Listen : string -> option string) (f : Flags) :
  (generateTLSConfig c = None <-> exists e, GenerateKey c P256 = Err e)
  /\ (exit (main string16 InterfaceAddrs c Listen f) = Panicked
      <-> flag_https f = true /\ exists e, GenerateKey c P256 = Err e).
Proof.
  assert (generateTLSConfig c = None <-> exists e, GenerateKey c P256 = Err e)
    as Hg.
  { rewrite generateTLSConfig_eq.
    destruct (GenerateKey c P256) as [priv|e]; split;
      try discriminate; eauto.
    intros [e' H]. discriminate. }
  split; [exact Hg|]. rewrite <- Hg.
  unfold main, listenAndServe. cbn [https parseArgs port].
  destruct (flag_https f).
  - destruct (generateTLSConfig c) as [cfg|]; cbn [exit].
    + destruct (Listen _); split; try discriminate;
        intros [_ H]; discriminate.
    + split; auto.
  - cbn [exit]. destruct (Listen _); split; try discriminate;
      intros [H _]; discriminate.
Qed.


(** X12. When startup reaches the listen call and the port is free, the
    server listens on the colon followed by the decimal text of the
    [--port] flag, which reads back as the flag; a TLS configuration is
    in use exactly with [--https]. *)
Theorem server_listens_on_the_port_flag
        (ia : Result (list Addr)) (c : Crypto)
        (Listen : string -> option string) (f : Flags)
        (addr : string) (cfg : option tls.Config) :
  exit (main string16 ia c Listen f) = Serving addr cfg ->
  exists p,
    addr = ":" +:+ p
    /\ Z.of_int <$> NilZero.int_of_string p = Some (flag_port f)
    /\ Listen addr = None
    /\ (is_Some cfg <-> flag_https f = true).
Proof.
  intros H. exists (Itoa (flag_port f)).
  assert (Z.of_int <$> NilZero.int_of_string (Itoa (flag_port f))
          = Some (flag_port f)) as Hrt.
  { unfold Itoa. rewrite NilZero.isi.
    - cbn. rewrite DecimalZ.of_to. reflexivity.
    - destruct (flag_port f); cbn; try discriminate.
      intros [= E]. exact (Unsigned.to_uint_nonnil _ E).
    - destruct (flag_port f); cbn; try discriminate.
      intros [= E]. exact (Unsigned.to_uint_nonnil _ E). }
  unfold main, listenAndServe in H. cbn [https parseArgs port] in H.
  destruct (flag_https f).
  - destruct (generateTLSConfig c) as [tc|]; cbn [exit] in H;
      [|discriminate].
    destruct (Listen _) eqn:EL; [discriminate|]. injection H as <- <-.
    repeat split; eauto.
  - cbn [exit] in H. destruct (Listen _) eqn:EL; [discriminate|].
    injection H as <- <-. repeat split; eauto.
    + intros [x Hx]. discriminate.
    + discriminate.
Qed.

End StartupMore.

(** ** The further properties at concrete inputs *)


Lemma flags_affect_console_only_witness :
  response <$> handler Sample.TypeByExtension Sample.isPrintTable
                 Sample.isInGraphicList Sample.FileServer Sample.args
                 Sample.w0 (Sample.get "/images/") ""
  = response <$> handler Sample.TypeByExtension Sample.isPrintTable
                   Sample.isInGraphicList Sample.FileServer sampleSilentArgs
                   Sample.w0 (Sample.get "/images/") ""
  /\ stdout <$> handler Sample.TypeByExtension Sample.isPrintTable
                  Sample.isInGraphicList Sample.FileServer Sample.args
                  Sample.w0 (Sample.get "*") ""
     = Some (logLine (Sample.get "/*")).
Proof.
  split.
  - exact (proj1 (flags_affect_console_only Sample.TypeByExtension
                    Sample.isPrintTable Sample.isInGraphicList
                    Sample.FileServer Sample.args sampleSilentArgs Sample.w0
                    (Sample.get "/images/") "" eq_refl)).
  - destruct (flags_affect_console_only Sample.TypeByExtension
                Sample.isPrintTable Sample.isInGraphicList Sample.FileServer
                Sample.args Sample.args Sample.w0 (Sample.get "*") "" eq_refl)
      as (_ & H & _).
    rewrite H. reflexivity.
Defined.

Lemma download_name_is_last_element_witness :
  Base "/docs/2024/report.pdf" <> ""
  /\ contains (Base "/docs/2024/report.pdf") slash = false.
Proof.
  destruct (download_name_is_last_element "/docs/2024/report.pdf" eq_refl)
    as (H1 & H2 & _).
  split; [exact H1|exact H2].
Defined.

Lemma isMedia_by_last_extension_witness :
  isMedia Sample.TypeByExtension "backup.2024.pdf"
  = inMediaTypes (Sample.TypeByExtension ".pdf").
Proof.
  exact (proj2 (isMedia_by_last_extension Sample.TypeByExtension
                  "backup.2024" "pdf" eq_refl eq_refl)).
Defined.

Lemma unknown_or_parameterised_type_is_not_media_witness :
  Sample.TypeByExtension (Ext "index.html") = "text/html; charset=utf-8"
  /\ isMedia Sample.TypeByExtension "index.html" = false.
Proof.
  split; [reflexivity|].
  apply (unknown_or_parameterised_type_is_not_media Sample.TypeByExtension
           "index.html").
  right. reflexivity.
Defined.

Lemma dotted_decimal_round_trip_witness :
  readDotted (string4 [192; 168; 1; 20]) = Some [192; 168; 1; 20].
Proof.
  apply (dotted_decimal_round_trip 192 168 1 20); lia.
Defined.


Lemma server_listens_on_the_port_flag_witness :
  exists p,
    ":8443" = ":" +:+ p
    /\ Z.of_int <$> NilZero.int_of_string p = Some 8443.
Proof.
  destruct (server_listens_on_the_port_flag Sample.string16
              (Ok [Sample.lo; Sample.wlan0]) Sample.crypto Sample.portFree
              Sample.httpsFlags ":8443" _ eq_refl) as (p & H1 & H2 & _).
  exists p. split; [exact H1|exact H2].
Defined.

(** ** The quoted name is at most four times as long as the name *)

Lemma len_empty : len "" = 0.
Proof. reflexivity. Qed.

Lemma len_hexdigits (r : Z) (n : nat) : len (strconv.hexdigits r n) = Z.of_nat n.
Proof.
  induction n as [|n IH]; [reflexivity|].
  cbn [strconv.hexdigits]. rewrite len_String, IH. lia.
Qed.

Lemma len_bytes (l : list Z) : len (utf8.bytes l) = Z.of_nat (length l).
Proof.
  induction l as [|z l IH]; [reflexivity|].
  rewrite bytes_cons, len_String, IH. cbn [length]. lia.
Qed.

Lemma len_encodeRune (r : Z) : 1 <= len (utf8.encodeRune r) <= 4.
Proof.
  unfold utf8.encodeRune, utf8.encodeRuneNonASCII.
  repeat match goal with
         | |- context [if ?b then _ else _] => destruct b
         end; rewrite len_bytes; cbn [length]; lia.
Qed.

Lemma length_drop_exact (s : string) (n : nat) :
  (n <= String.length s)%nat ->
  String.length (drop s n) = (String.length s - n)%nat.
Proof.
  revert n. induction s as [|c tl IH]; intros [|n] H; cbn in *; try lia.
  apply IH. lia.
Qed.

Lemma first_as (b : Z) : utf8.first b = utf8.as_ -> b <= 0x7F.
Proof.
  unfold utf8.first.
  repeat match goal with
         | |- context [if ?c then _ else _] =>
             match c with
             | ?x <=? ?y => destruct (Z.leb_spec x y)
             | ?x =? ?y => destruct (Z.eqb_spec x y)
             end
         end; try discriminate; lia.
Qed.

(** A decoding of width one that starts on a byte from [0x80] on is the
    error rune. *)
Lemma DecodeRuneInString_width_one (s : string) :
  utf8.RuneSelf <= byteAt s 0 ->
  snd (utf8.DecodeRuneInString s) = 1 ->
  fst (utf8.DecodeRuneInString s) = utf8.RuneError.
Proof.
  intros Hb. unfold utf8.DecodeRuneInString.
  destruct (len s <? 1); [discriminate|].
  pose proof (first_cases (byteAt s 0)) as Hf. cbn [In] in Hf.
  pose proof (first_as (byteAt s 0)) as Has.
  change utf8.RuneSelf with 128 in Hb.
  destruct Hf as [Hf|Hf]; [symmetry in Hf; apply Has in Hf; lia|].
  clear Has.
  repeat (destruct Hf as [<-|Hf]; [|]); [..|contradiction];
    decode_entry.
  2-8: repeat match goal with
         | |- context [if ?c then _ else _] => destruct c
         end; cbn [fst snd]; intros; try reflexivity; try discriminate.
  intros _. rewrite mask_xx. cbn [fst]. change (Z.lnot (-1)) with 0.
  rewrite Z.land_0_r, Z.land_m1_r. reflexivity.
Qed.

Ltac rune_bound16 :=
  cbn [fst];
  change utf8.mask2 with (Z.ones 5); change utf8.mask3 with (Z.ones 4);
  change utf8.maskx with (Z.ones 6);
  repeat (apply (lor_bound 16); [lia| |]);
  rewrite ?Z.land_ones, ?Z.shiftl_mul_pow2 by lia;
  match goal with
  | |- context [?a mod ?m] =>
      pose proof (Z.mod_pos_bound a m ltac:(reflexivity))
  end;
  change (2 ^ 16) with 65536; change (2 ^ 12) with 4096 in *;
  change (2 ^ 6) with 64 in *; change (2 ^ 5) with 32 in *;
  change (2 ^ 4) with 16 in *; lia.

Ltac rune_const16 :=
  cbn [fst]; unfold utf8.RuneError; change (2 ^ 16) with 65536; lia.

(** A decoding of width at most three stays below [2 ^ 16]. *)
Lemma DecodeRuneInString_small (s : string) :
  snd (utf8.DecodeRuneInString s) <= 3 ->
  0 <= fst (utf8.DecodeRuneInString s) < 2 ^ 16.
Proof.
  unfold utf8.DecodeRuneInString.
  destruct (len s <? 1); [intros _; rune_const16|].
  pose proof (first_cases (byteAt s 0)) as Hf.
  pose proof (byteAt_range s 0) as H0.
  cbn [In] in Hf.
  destruct Hf as [<-|[<-|Hf]].
  - change (utf8.as_ <=? utf8.as_) with true. cbn iota.
    rewrite mask_as. cbn [fst]. change (Z.lnot 0) with (-1).
    rewrite Z.land_m1_r, Z.land_0_r, Z.lor_0_r.
    intros _. change (2 ^ 16) with 65536. lia.
  - change (utf8.as_ <=? utf8.xx) with true. cbn iota.
    rewrite mask_xx. cbn [fst]. change (Z.lnot (-1)) with 0.
    rewrite Z.land_0_r, Z.land_m1_r, Z.lor_0_l. intros _. rune_const16.
  - repeat (destruct Hf as [<-|Hf]; [|]); [..|contradiction];
      decode_entry;
      repeat match goal with
             | |- context [if ?c then _ else _] => destruct c
             end; cbn [snd]; intros Hw; try lia; try rune_const16;
      rune_bound16.
Qed.

Section QuoteLength.

Variable isPrintTable : Z -> bool.
Variable isInGraphicList : Z -> bool.

Lemma IsPrint_ascii (r : Z) :
  0x20 <= r <= 0x7E -> strconv.IsPrint isPrintTable r = true.
Proof.
  intros H. unfold strconv.IsPrint.
  destruct (Z.leb_spec r 255); [|lia].
  destruct (Z.leb_spec 32 r); [|lia].
  destruct (Z.leb_spec r 126); [|lia]. reflexivity.
Qed.

Lemma len_hexEscape (a b : Z) :
  len ("\x" +:+ String (strconv.hexdigit a) (String (strconv.hexdigit b) ""))
  = 4.
Proof. reflexivity. Qed.

Lemma len_unicodeEscape (c : ascii) (r : Z) (n : nat) :
  len (String backslash (String c "") +:+ strconv.hexdigits r n)
  = 2 + Z.of_nat n.
Proof.
  rewrite !append_cons, append_nil_l, !len_String, len_hexdigits. lia.
Qed.

(** The escape of a rune: at most four bytes below [0x80], six below
    [0x10000], ten above. *)
Lemma len_escapedRune (r : Z) :
  0 <= r ->
  len (strconv.escapedRune isPrintTable isInGraphicList r dquote false false)
  <= if r <? 0x80 then 4 else if r <? 0x10000 then 6 else 10.
Proof.
  intros Hr.
  assert (4 <= (if r <? 0x80 then 4 else if r <? 0x10000 then 6 else 10))
    as H4 by (destruct (r <? 0x80); [lia|destruct (r <? 0x10000); lia]).
  unfold strconv.escapedRune.
  destruct (_ || _); [change (len _) with 2; lia|].
  cbn [andb negb]. rewrite orb_false_r.
  destruct (strconv.IsPrint isPrintTable r) eqn:Hp.
  { pose proof (len_encodeRune r). lia. }
  repeat match goal with
         | |- context [if ?x =? ?y then _ else _] =>
             destruct (x =? y); [change (len _) with 2; lia|]
         end.
  destruct (Z.ltb_spec r 32) as [|H32]; cbn [orb];
    [rewrite len_hexEscape; lia|].
  destruct (Z.eqb_spec r 127) as [|H127]; [rewrite len_hexEscape; lia|].
  assert (0x80 <= r) as H80.
  { destruct (Z.lt_ge_cases r 128) as [Hlt|]; [|assumption].
    rewrite IsPrint_ascii in Hp by lia. discriminate. }
  destruct (Z.ltb_spec r 128); [lia|].
  destruct (negb (utf8.ValidRune r)).
  { change (len _) with 6. destruct (r <? 65536); lia. }
  destruct (Z.ltb_spec r 65536).
  - change "\u" with (String backslash (String "u"%char "")).
    rewrite len_unicodeEscape. lia.
  - change "\U" with (String backslash (String "U"%char "")).
    rewrite len_unicodeEscape. lia.
Qed.

(** What one turn of the loop writes is at most four times as long as
    what it reads. *)
Lemma len_piece (c : ascii) (tl : string) :
  let rw :=
    if utf8.RuneSelf <=? byteZ c
    then utf8.DecodeRuneInString (String c tl)
    else (byteZ c, 1) in
  1 <= snd rw <= len (String c tl)
  /\ len (if (snd rw =? 1) && (fst rw =? utf8.RuneError) then
            "\x" +:+ String (strconv.hexdigit (Z.shiftr (byteZ c) 4))
                       (String (strconv.hexdigit (Z.land (byteZ c) 0xF)) "")
          else strconv.escapedRune isPrintTable isInGraphicList (fst rw)
                 dquote false false)
     <= 4 * snd rw.
Proof.
  cbv zeta. pose proof (byteZ_range c) as Hc.
  pose proof (len_nonneg tl) as Htl.
  destruct (Z.leb_spec utf8.RuneSelf (byteZ c)) as [Hhi|Hlo].
  - pose proof (DecodeRuneInString_width (String c tl) ltac:(discriminate))
      as Hw.
    pose proof (DecodeRuneInString_width_le (String c tl)
                  ltac:(discriminate)) as Hwl.
    pose proof (DecodeRuneInString_range (String c tl)) as Hr.
    pose proof (DecodeRuneInString_width_one (String c tl) Hhi) as Hone.
    pose proof (DecodeRuneInString_small (String c tl)) as Hs.
    destruct (utf8.DecodeRuneInString (String c tl)) as [r w].
    cbn [fst snd] in *. split; [lia|].
    destruct (Z.eqb_spec w 1) as [->|Hw1]; cbn [andb].
    + rewrite (Hone eq_refl). change (utf8.RuneError =? utf8.RuneError) with true.
      cbn iota. rewrite len_hexEscape. lia.
    + pose proof (len_escapedRune r ltac:(lia)) as Hl.
      destruct (Z.ltb_spec r 128); [lia|].
      destruct (Z.ltb_spec r 65536); [lia|].
      assert (w = 4) as ->; [|lia].
      destruct (Z.le_gt_cases w 3) as [Hle|]; [|lia].
      apply Hs in Hle. change (2 ^ 16) with 65536 in Hle. lia.
  - cbn [fst snd]. rewrite len_String. split; [lia|].
    change utf8.RuneSelf with 128 in Hlo.
    change (1 =? 1) with true. cbn [andb].
    destruct (byteZ c =? utf8.RuneError); [rewrite len_hexEscape; lia|].
    pose proof (len_escapedRune (byteZ c) ltac:(lia)) as Hl.
    destruct (Z.ltb_spec (byteZ c) 128); lia.
Qed.

Lemma len_quotedBody (s : string) :
  len (strconv.quotedBody isPrintTable isInGraphicList s dquote false false)
  <= 4 * len s.
Proof.
  remember (String.length s) as n eqn:Hn. revert s Hn.
  induction n as [n IH] using lt_wf_ind. intros s ->.
  destruct s as [|c tl]; [vm_compute; discriminate|].
  rewrite quotedBody_cons. cbv zeta. rewrite len_app.
  destruct (len_piece c tl) as [Hw Hp]. cbv zeta in Hw, Hp.
  set (rw := if utf8.RuneSelf <=? byteZ c
             then utf8.DecodeRuneInString (String c tl)
             else (byteZ c, 1)) in *.
  rewrite len_String in *. unfold len in Hw.
  assert (len (drop tl (Z.to_nat (snd rw - 1))) = len tl - (snd rw - 1))
    as Hd.
  { unfold len. rewrite length_drop_exact by lia. lia. }
  specialize (IH (String.length (drop tl (Z.to_nat (snd rw - 1))))).
  assert (len (strconv.quotedBody isPrintTable isInGraphicList
                 (drop tl (Z.to_nat (snd rw - 1))) dquote false false)
          <= 4 * len (drop tl (Z.to_nat (snd rw - 1)))) as Hrest.
  { apply (IH ltac:(pose proof (length_drop tl (Z.to_nat (snd rw - 1)));
                    cbn [String.length]; lia) _ eq_refl). }
  lia.
Qed.

(** X13. The Content-Disposition value is at most four times as long as
    the file name, plus the 21 bytes of [attachment; filename=] and the two
    quotes. *)
Theorem disposition_length_bound (filename : string) :
  len (dispositionOf isPrintTable isInGraphicList filename)
  <= 4 * len filename + 23.
Proof.
  unfold dispositionOf.
  rewrite Quote_shape, len_app, (len_String dquote), len_app.
  pose proof (len_quotedBody filename).
  change (len "attachment; filename=") with 21.
  change (len (String dquote "")) with 1. lia.
Qed.

End QuoteLength.

(** ** Printable UTF-8 is copied unchanged *)

(** An "or" of two numbers without common bits is their sum. *)
Lemma lor_add_disjoint (a b k : Z) :
  0 <= k -> 0 <= b < 2 ^ k -> a mod 2 ^ k = 0 -> Z.lor a b = a + b.
Proof.
  intros Hk Hb Ha. symmetry. apply Z.add_nocarry_lor.
  apply Z.bits_inj'. intros n Hn. rewrite Z.land_spec, Z.bits_0.
  destruct (Z.lt_ge_cases n k) as [Hlt|Hge].
  - assert (Z.testbit a n = false) as ->; [|reflexivity].
    rewrite <- (Z.mod_pow2_bits_low a k n) by lia. rewrite Ha.
    apply Z.bits_0.
  - assert (Z.testbit b n = false) as ->; [|apply andb_false_r].
    rewrite <- (Z.mod_small b (2 ^ k)) by lia.
    apply Z.mod_pow2_bits_high. lia.
Qed.

Ltac pow_consts :=
  change (2 ^ 6) with 64 in *; change (2 ^ 12) with 4096 in *;
  change (2 ^ 18) with 262144 in *; change (2 ^ 3) with 8 in *;
  change (2 ^ 4) with 16 in *; change (2 ^ 5) with 32 in *;
  change (2 ^ 32) with 4294967296 in *.

Ltac arith := pow_consts; Z.div_mod_to_equations; lia.

(** Rewrite the masks and shifts of the goal as divisions and
    remainders, and the "or"s of disjoint parts as sums. *)
Ltac bits_to_arith :=
  unfold utf8.t2, utf8.t3, utf8.t4, utf8.tx, byte;
  change utf8.mask2 with (Z.ones 5); change utf8.mask3 with (Z.ones 4);
  change utf8.mask4 with (Z.ones 3); change utf8.maskx with (Z.ones 6);
  rewrite ?Z.land_ones, ?Z.shiftl_mul_pow2, ?Z.shiftr_div_pow2 by lia;
  pow_consts.

(** Turn an innermost "or" of the goal into a sum; [k] is the width of
    its right part. *)
Ltac lor_sum k :=
  match goal with
  | |- context [Z.lor ?a ?b] =>
      lazymatch a with
      | context [Z.lor _ _] => fail
      | _ => rewrite (lor_add_disjoint a b k) by arith
      end
  end.

Lemma byteAt_bytes_0 (z : Z) (l : list Z) (rest : string) :
  0 <= z < 256 -> byteAt (utf8.bytes (z :: l) +:+ rest) 0 = z.
Proof.
  intros H. rewrite bytes_cons, append_cons, byteAt_0, byteZ_ascii_of_byte.
  apply byte_small. exact H.
Qed.

Lemma byteAt_bytes_S (z : Z) (l : list Z) (rest : string) (i : nat) :
  byteAt (utf8.bytes (z :: l) +:+ rest) (S i) = byteAt (utf8.bytes l +:+ rest) i.
Proof. rewrite bytes_cons, append_cons. apply byteAt_S. Qed.

Lemma len_bytes_app (l : list Z) (rest : string) :
  len (utf8.bytes l +:+ rest) = Z.of_nat (length l) + len rest.
Proof.
  induction l as [|z l IH]; [rewrite append_nil_l; cbn; lia|].
  rewrite bytes_cons, append_cons, len_String, IH. cbn [length]. lia.
Qed.

(** Decide a comparison of the goal from the hypotheses, or split on it. *)
Ltac split_cmp :=
  match goal with
  | |- context [?a <? ?b] =>
      first [ replace (a <? b) with true by (symmetry; apply Z.ltb_lt; lia)
            | replace (a <? b) with false by (symmetry; apply Z.ltb_ge; lia)
            | destruct (Z.ltb_spec a b) ]
  | |- context [?a <=? ?b] =>
      first [ replace (a <=? b) with true by (symmetry; apply Z.leb_le; lia)
            | replace (a <=? b) with false by (symmetry; apply Z.leb_gt; lia)
            | destruct (Z.leb_spec a b) ]
  | |- context [?a =? ?b] =>
      first [ replace (a =? b) with true by (symmetry; apply Z.eqb_eq; lia)
            | replace (a =? b) with false by (symmetry; apply Z.eqb_neq; lia)
            | destruct (Z.eqb_spec a b) ]
  end; cbn [orb andb negb].

Lemma first_two (b : Z) : 0xC2 <= b <= 0xDF -> utf8.first b = utf8.s1.
Proof. intros H. unfold utf8.first. repeat split_cmp; reflexivity || lia. Qed.

Lemma first_three (a : Z) :
  0 <= a < 16 ->
  utf8.first (224 + a)
  = if a =? 0 then utf8.s2 else if a =? 13 then utf8.s4 else utf8.s3.
Proof. intros H. unfold utf8.first. repeat split_cmp; reflexivity || lia. Qed.

Lemma first_four (a : Z) :
  0 <= a <= 4 ->
  utf8.first (240 + a)
  = if a =? 0 then utf8.s5 else if a =? 4 then utf8.s7 else utf8.s6.
Proof. intros H. unfold utf8.first. repeat split_cmp; reflexivity || lia. Qed.

Ltac decode_bytes :=
  unfold utf8.DecodeRuneInString;
  rewrite len_bytes_app, !byteAt_bytes_S, !byteAt_bytes_0 by lia;
  cbn [length].

Lemma decode_two (q m : Z) (rest : string) :
  2 <= q < 32 -> 0 <= m < 64 ->
  utf8.DecodeRuneInString (utf8.bytes [192 + q; 128 + m] +:+ rest)
  = (64 * q + m, 2).
Proof.
  intros Hq Hm. pose proof (len_nonneg rest) as Hr.
  decode_bytes. rewrite first_two by lia.
  decode_entry. repeat split_cmp. f_equal.
  bits_to_arith. lor_sum 6. arith.
Qed.

Lemma decode_three (a b c : Z) (rest : string) :
  0 <= a < 16 -> 0 <= b < 64 -> 0 <= c < 64 ->
  (a = 0 -> 32 <= b) -> (a = 13 -> b < 32) ->
  utf8.DecodeRuneInString
    (utf8.bytes [224 + a; 128 + b; 128 + c] +:+ rest)
  = (4096 * a + 64 * b + c, 3).
Proof.
  intros Ha Hb Hc H0 H13. pose proof (len_nonneg rest) as Hr.
  decode_bytes. rewrite first_three by lia.
  destruct (Z.eqb_spec a 0) as [E0|N0];
    [|destruct (Z.eqb_spec a 13) as [E13|N13]];
    decode_entry; unfold utf8.locb, utf8.hicb; repeat split_cmp;
    try lia; f_equal; bits_to_arith; lor_sum 12; lor_sum 6; arith.
Qed.

Lemma decode_four (a b c d : Z) (rest : string) :
  0 <= a <= 4 -> 0 <= b < 64 -> 0 <= c < 64 -> 0 <= d < 64 ->
  (a = 0 -> 16 <= b) -> (a = 4 -> b < 16) ->
  utf8.DecodeRuneInString
    (utf8.bytes [240 + a; 128 + b; 128 + c; 128 + d] +:+ rest)
  = (262144 * a + 4096 * b + 64 * c + d, 4).
Proof.
  intros Ha Hb Hc Hd H0 H4. pose proof (len_nonneg rest) as Hr.
  decode_bytes. rewrite first_four by lia.
  destruct (Z.eqb_spec a 0) as [E0|N0];
    [|destruct (Z.eqb_spec a 4) as [E4|N4]];
    decode_entry; unfold utf8.locb, utf8.hicb; repeat split_cmp;
    try lia; f_equal; bits_to_arith;
    lor_sum 18; lor_sum 12; lor_sum 6; arith.
Qed.


Lemma ValidRune_range (r : Z) :
  utf8.ValidRune r = true ->
  0 <= r <= 0x10FFFF /\ (r < 0xD800 \/ 0xDFFF < r).
Proof.
  unfold utf8.ValidRune, utf8.surrogateMin, utf8.surrogateMax, utf8.MaxRune.
  repeat split_cmp; intros Hvalid; try discriminate; lia.
Qed.

Ltac encode_form :=
  unfold utf8.encodeRune, utf8.encodeRuneNonASCII, uint32,
    utf8.rune1Max, utf8.rune2Max, utf8.rune3Max, utf8.MaxRune,
    utf8.surrogateMin, utf8.surrogateMax;
  rewrite Z.mod_small by (pow_consts; lia);
  change (Z.shiftl 1 7 - 1) with 127; change (Z.shiftl 1 11 - 1) with 2047;
  change (Z.shiftl 1 16 - 1) with 65535;
  repeat split_cmp; try lia;
  repeat f_equal; bits_to_arith;
  match goal with
  | |- Z.lor ?a ?b = _ => rewrite (lor_add_disjoint a b 6) by arith; arith
  | |- Z.lor ?a ?b = _ => rewrite (lor_add_disjoint a b 5) by arith; arith
  | |- Z.lor ?a ?b = _ => rewrite (lor_add_disjoint a b 4) by arith; arith
  | |- Z.lor ?a ?b = _ => rewrite (lor_add_disjoint a b 3) by arith; arith
  end.

Lemma encodeRune_two (r : Z) :
  0x80 <= r < 0x800 ->
  utf8.encodeRune r = utf8.bytes [192 + r / 64; 128 + r mod 64].
Proof. intros H. encode_form. Qed.

Lemma encodeRune_three (r : Z) :
  0x800 <= r < 0x10000 -> r < 0xD800 \/ 0xDFFF < r ->
  utf8.encodeRune r
  = utf8.bytes [224 + r / 4096; 128 + r / 64 mod 64; 128 + r mod 64].
Proof. intros H Hs. encode_form. Qed.

Lemma encodeRune_four (r : Z) :
  0x10000 <= r <= 0x10FFFF ->
  utf8.encodeRune r
  = utf8.bytes [240 + r / 262144; 128 + r / 4096 mod 64;
                128 + r / 64 mod 64; 128 + r mod 64].
Proof. intros H. encode_form. Qed.

(** Decoding the UTF-8 text of a code point from [0x80] on gives the
    code point back, with the number of bytes written. *)
Lemma decode_encode (r : Z) (rest : string) :
  utf8.ValidRune r = true -> 0x80 <= r ->
  exists v vs,
    utf8.encodeRune r = utf8.bytes (v :: vs)
    /\ 0xC2 <= v < 256
    /\ utf8.DecodeRuneInString (utf8.encodeRune r +:+ rest)
       = (r, 1 + Z.of_nat (length vs)).
Proof.
  intros Hv Hr. apply ValidRune_range in Hv as [Hrange Hsur].
  destruct (Z.lt_ge_cases r 0x800) as [H2|H2];
    [|destruct (Z.lt_ge_cases r 0x10000) as [H3|H3]].
  - rewrite encodeRune_two by lia. eexists. eexists.
    split; [reflexivity|]. split; [arith|].
    rewrite decode_two by arith. f_equal. arith.
  - rewrite encodeRune_three by lia. eexists. eexists.
    split; [reflexivity|]. split; [arith|].
    rewrite decode_three by arith. f_equal. arith.
  - rewrite encodeRune_four by lia. eexists. eexists.
    split; [reflexivity|]. split; [arith|].
    rewrite decode_four by arith. f_equal. arith.
Qed.

Lemma length_bytes (l : list Z) :
  String.length (utf8.bytes l) = length l.
Proof.
  induction l as [|z l IH]; [reflexivity|].
  rewrite bytes_cons. cbn [String.length length]. congruence.
Qed.

Section QuoteCopies.

Variable isPrintTable : Z -> bool.
Variable isInGraphicList : Z -> bool.

Abbreviation body s :=
  (strconv.quotedBody isPrintTable isInGraphicList s dquote false false).

(** The escape of a printable rune is its UTF-8 text. *)
Lemma escapedRune_copied (r : Z) :
  copiedRune isPrintTable r = true ->
  strconv.escapedRune isPrintTable isInGraphicList r dquote false false
  = utf8.encodeRune r.
Proof.
  unfold copiedRune. intros H.
  apply andb_true_iff in H as [H H92]. apply andb_true_iff in H as [H H34].
  apply andb_true_iff in H as [_ Hp].
  apply negb_true_iff in H34, H92.
  unfold strconv.escapedRune. rewrite byteZ_dquote, byteZ_backslash.
  rewrite H34, H92, Hp. reflexivity.
Qed.

(** One printable rune at the head of a text is copied. *)
Lemma quotedBody_copied_rune (r : Z) (rest : string) :
  copiedRune isPrintTable r = true ->
  body (utf8.encodeRune r +:+ rest) = utf8.encodeRune r +:+ body rest.
Proof.
  intros Hc. pose proof (escapedRune_copied r Hc) as He.
  unfold copiedRune in Hc.
  apply andb_true_iff in Hc as [Hc _]. apply andb_true_iff in Hc as [Hc _].
  apply andb_true_iff in Hc as [Hv _].
  pose proof (ValidRune_range r Hv) as [Hrange _].
  destruct (Z.lt_ge_cases r 0x80) as [Hlo|Hhi].
  - assert (utf8.encodeRune r = String (ascii_of_byte r) "") as Henc.
    { unfold utf8.encodeRune, uint32. rewrite Z.mod_small by (pow_consts; lia).
      change utf8.rune1Max with 127.
      destruct (Z.leb_spec r 127); [|lia].
      rewrite bytes_cons. unfold ascii_of_byte, byte.
      rewrite Z.mod_mod by lia. reflexivity. }
    rewrite Henc in *. rewrite append_cons, append_nil_l, quotedBody_cons.
    rewrite byteZ_ascii_of_byte, (byte_small r) by lia.
    change utf8.RuneSelf with 128.
    destruct (Z.leb_spec 128 r); [lia|]. cbv zeta. cbn [fst snd].
    assert ((r =? utf8.RuneError) = false) as ->
      by (apply Z.eqb_neq; change utf8.RuneError with 65533; lia).
    rewrite andb_false_r, He. change (Z.to_nat (1 - 1)) with 0%nat.
    rewrite drop_O, append_cons, append_nil_l. reflexivity.
  - destruct (decode_encode r rest Hv Hhi) as (v & vs & Henc & Hvr & Hd).
    rewrite Henc in *. rewrite bytes_cons, append_cons in *.
    rewrite quotedBody_cons, byteZ_ascii_of_byte, (byte_small v) by lia.
    change utf8.RuneSelf with 128.
    destruct (Z.leb_spec 128 v); [|lia]. rewrite Hd. cbv zeta. cbn [fst snd].
    assert ((1 + Z.of_nat (length vs) =? 1) = false) as ->.
    { apply Z.eqb_neq. intros E.
      assert (vs = []) as -> by (destruct vs; [reflexivity|cbn in E; lia]).
      clear - Henc Hhi Hv. apply ValidRune_range in Hv as [Hrange Hsur].
      assert (String.length (utf8.encodeRune r) = 1%nat) as Hl
        by (rewrite Henc; reflexivity).
      destruct (Z.lt_ge_cases r 0x800) as [H2|H2];
        [rewrite encodeRune_two in Hl by lia; discriminate|].
      destruct (Z.lt_ge_cases r 0x10000) as [H3|H3];
        [rewrite encodeRune_three in Hl by lia; discriminate|].
      rewrite encodeRune_four in Hl by lia. discriminate. }
    cbn [andb]. rewrite He.
    replace (Z.to_nat (1 + Z.of_nat (length vs) - 1))
      with (String.length (utf8.bytes vs))
      by (rewrite length_bytes; lia).
    rewrite drop_app_length, append_cons. reflexivity.
Qed.

Lemma quotedBody_copied (runes : list Z) :
  forallb (copiedRune isPrintTable) runes = true ->
  body (encodeAll runes) = encodeAll runes.
Proof.
  induction runes as [|r runes IH]; [reflexivity|].
  cbn [forallb encodeAll]. intros H. apply andb_true_iff in H as [Hr Hrs].
  rewrite quotedBody_copied_rune by exact Hr. rewrite (IH Hrs). reflexivity.
Qed.

(** X14. A file name that is the UTF-8 text of printable code points,
    none of them a double quote or a backslash, is sent as it is
    between the quotes: accented and other non-ASCII names are not
    escaped. *)
Theorem printable_utf8_name_is_copied (runes : list Z) :
  forallb (copiedRune isPrintTable) runes = true ->
  dispositionOf isPrintTable isInGraphicList (encodeAll runes)
  = "attachment; filename="
    +:+ String dquote (encodeAll runes +:+ String dquote "").
Proof.
  intros H. unfold dispositionOf.
  rewrite Quote_shape, (quotedBody_copied runes H). reflexivity.
Qed.

End QuoteCopies.

Lemma printable_utf8_name_is_copied_witness :
  forallb (copiedRune Sample.isPrintTable) sampleRunes = true
  /\ dispositionOf Sample.isPrintTable Sample.isInGraphicList
       (encodeAll sampleRunes)
     = "attachment; filename="
       +:+ String dquote (encodeAll sampleRunes +:+ String dquote "").
Proof.
  split; [reflexivity|].
  apply (printable_utf8_name_is_copied Sample.isPrintTable
           Sample.isInGraphicList sampleRunes).
  reflexivity.
Defined.
